(** * TLS provisioning from the Windows certificate store (containerd)

    A shallow embedding of [setupTLSFromWindowsCertStore]
    (cmd/containerd/server/server_windows.go) and of its no-op twin for the
    other platforms, together with the properties of the pipeline:
    which certificates reach the trust pool, when client authentication is
    enforced, how errors surface and how handles are released.

    The Go function is one straight-line body with early returns, deferred
    calls and a nested loop.  It is embedded in a small monad [Fn] that
    threads the trace of observable events and the stack of deferred calls,
    and whose computations either go on, return early or panic.  The
    operating system and the Go libraries the function calls are gathered
    in a record [World] of oracles: every theorem quantifies over it. *)

From Stdlib Require Import List ZArith Bool Arith Lia.
From Stdlib.Strings Require Import String Ascii Byte.
Import ListNotations.
Local Open Scope string_scope.
Local Open Scope list_scope.

(** ** Go values *)

(** An [error] value.  [Errorf fmt cause] is [fmt.Errorf(fmt, cause)] for a
    format with one verb ([%w] or [%v]); the cause may be the nil error. *)
#[warnings="-register-all"] Inductive Error : Type :=
| Errno (code : Z)
| ErrorString (msg : string)
| Errorf (format : string) (cause : option Error).

(** The two results [(T, error)] of a library call.  A failing call hands
    back the zero value of [T], so only the error is kept. *)
Inductive result (A : Type) : Type :=
| Ok (a : A)
| Failed (err : Error).
Arguments Ok {A} a.
Arguments Failed {A} err.

(** The pair [(ptr, err)] of a call whose first result is a pointer:
    [None] is the nil pointer, also handed back along with an error. *)
Definition go_results {A : Type} (r : result (option A)) : option A * option Error :=
  match r with
  | Ok p => (p, None)
  | Failed err => (None, Some err)
  end.

Definition is_nil {A : Type} (p : option A) : bool :=
  match p with
  | None => true
  | Some _ => false
  end.

Definition not_nil {A : Type} (p : option A) : bool := negb (is_nil p).

(** [make([]byte, n)] *)
Definition make_bytes (n : nat) : list byte := repeat x00 n.

(** The builtin [copy(dst, src)]: the first [min (len dst) (len src)]
    elements of [dst] are overwritten. *)
Definition copy {A : Type} (dst src : list A) : list A :=
  firstn (List.length dst) src ++ skipn (List.length src) dst.

(** [unsafe.Slice(ptr, n)]: the [n] elements that start at [ptr].  A pointer
    into foreign memory is modelled by the elements stored there. *)
Definition unsafe_Slice {A : Type} (mem : list A) (n : nat) : list A := firstn n mem.

(** [syscall.UTF16PtrFromString]: fails with [EINVAL] when the string holds a
    NUL character.  The UTF-16 buffer is modelled by the string it encodes. *)
Definition EINVAL : Error := ErrorString "invalid argument".

Fixpoint has_NUL (s : string) : bool :=
  match s with
  | EmptyString => false
  | String c rest => Ascii.eqb c zero || has_NUL rest
  end.

Definition UTF16PtrFromString (s : string) : result string :=
  if has_NUL s then Failed EINVAL else Ok s.

(** ** The packages the function uses *)

Module x509.

Record Name : Type := { CommonName : string }.

Record Certificate : Type := {
  Raw : list byte;
  Subject : Name;
  Issuer : Name
}.

(** A [CertPool] keeps its certificates in the order they were added. *)
Definition CertPool : Type := list Certificate.

Definition NewCertPool : CertPool := [].

Definition same_bytes (a b : list byte) : bool :=
  if list_eq_dec Byte.byte_eq_dec a b then true else false.

Definition contains (s : CertPool) (cert : Certificate) : bool :=
  existsb (fun c => same_bytes (Raw c) (Raw cert)) s.

(** [CertPool.AddCert]: a certificate already in the pool (same raw
    bytes) is not added twice. *)
Definition AddCert (s : CertPool) (cert : Certificate) : CertPool :=
  if contains s cert then s else s ++ [cert].

End x509.

Module windows.

Definition Handle : Type := Z.

Definition CERT_STORE_PROV_SYSTEM : Z := 10.
Definition X509_ASN_ENCODING : Z := 1.
Definition PKCS_7_ASN_ENCODING : Z := 65536.
Definition CERT_SYSTEM_STORE_LOCAL_MACHINE : Z := 131072.
Definition CERT_FIND_SUBJECT_STR : Z := 524295.

(** A certificate held by the store.  [EncodedCert] stands for the
    [Length] bytes the field of that name points to. *)
Record CertContext : Type := {
  EncodingType : Z;
  EncodedCert : list byte
}.

Definition Length (c : CertContext) : nat := List.length (EncodedCert c).

Record CertChainElement : Type := {
  Element_CertContext : CertContext
}.

(** [Elements] stands for the [NumElements] elements behind the pointer. *)
Record CertSimpleChain : Type := {
  Elements : list CertChainElement
}.

Definition NumElements (c : CertSimpleChain) : nat := List.length (Elements c).

(** [Chains] stands for the [ChainCount] chains behind the pointer. *)
Record CertChainContext : Type := {
  Chains : list CertSimpleChain
}.

Definition ChainCount (c : CertChainContext) : nat := List.length (Chains c).

End windows.

Module certtostore.

Definition ProviderMSSoftware : string := "Microsoft Software Key Storage Provider".

(** The handle to the key-management layer. *)
Record WinCertStore : Type := {
  Prov : Z;
  ProvName : string;
  store_issuers : list string
}.

(** The signing and decryption capability; the key itself stays in the
    store. *)
Record Key : Type := { key_handle : Z }.

End certtostore.

Module tls.

Inductive ClientAuthType : Type :=
| NoClientCert
| RequestClientCert
| RequireAnyClientCert
| VerifyClientCertIfGiven
| RequireAndVerifyClientCert.

(** [tls.Certificate]; [CertificateList] is its field [Certificate]. *)
Record Certificate : Type := {
  CertificateList : list (list byte);
  PrivateKey : certtostore.Key;
  Leaf : x509.Certificate
}.

(** [tls.Config], the fields the function sets.  The zero value of
    [ClientAuth] is [NoClientCert]. *)
Record Config : Type := {
  Certificates : list Certificate;
  ClientCAs : x509.CertPool;
  ClientAuth : ClientAuthType
}.

Definition set_ClientAuth (c : Config) (a : ClientAuthType) : Config :=
  {| Certificates := Certificates c; ClientCAs := ClientCAs c; ClientAuth := a |}.

End tls.

Module credentials.

Inductive TransportCredentials : Type :=
| NewTLS (c : tls.Config).

End credentials.

Module grpc.

Inductive ServerOption : Type :=
| Creds (c : credentials.TransportCredentials).

End grpc.

Module srvconfig.

Record GRPCConfig : Type := {
  Address : string;
  TCPAddress : string;
  TCPTLSCName : string
}.

Record Config : Type := {
  Root : string;
  GRPC : GRPCConfig
}.

End srvconfig.

(** ** The world outside the function *)

(** What the operating system and the libraries answer.  A call that fails
    yields [Failed]; the certificate lookup may also succeed with a nil
    reference, which the function tests for.  The other calls are taken to
    keep their contract: with a nil error their result is not nil.  The
    function relies on it, using these results untested, and so does every
    statement below that says that a call returns. *)
Record World : Type := {
  CertOpenStore :
    Z -> Z -> Z -> Z -> string -> result windows.Handle;
  CertFindCertificateInStore :
    windows.Handle -> Z -> Z -> Z -> string -> option windows.CertContext
    -> result (option windows.CertContext);
  ParseCertificate :
    list byte -> result x509.Certificate;
  CertGetCertificateChain :
    windows.Handle -> windows.CertContext -> windows.Handle -> Z
    -> result windows.CertChainContext;
  OpenWinCertStore :
    string -> string -> list string -> list string -> bool -> result certtostore.WinCertStore;
  CertKey :
    certtostore.WinCertStore -> windows.CertContext -> result certtostore.Key
}.

(** ** Events, deferred calls and the function monad *)

(** The opaque handles of one run. *)
Inductive OpaqueHandle : Type :=
| StoreHandle (h : windows.Handle)
| CertificateReference (c : windows.CertContext)
| ChainContext (c : windows.CertChainContext)
| KeyManagementHandle (s : certtostore.WinCertStore).

Inductive Level : Type := LevelInfo | LevelError.

Inductive event : Type :=
| Log (lvl : Level) (msg : string) (err : option Error)
| Acquire (h : OpaqueHandle)
| Release (h : OpaqueHandle)
| Parse (der : list byte)
| KeyRequest (c : windows.CertContext).

(** The calls the function defers, with their arguments as evaluated by the
    [defer] statement. *)
Inductive DeferredCall : Type :=
| windows_CertCloseStore (store : windows.Handle) (flags : Z)
| windows_CertFreeCertificateContext (ctx : option windows.CertContext)
| windows_CertFreeCertificateChain (ctx : windows.CertChainContext)
| store_Close (store : certtostore.WinCertStore).

Definition exec_deferred (d : DeferredCall) : list event :=
  match d with
  | windows_CertCloseStore store _ => [Release (StoreHandle store)]
  | windows_CertFreeCertificateContext (Some ctx) => [Release (CertificateReference ctx)]
  | windows_CertFreeCertificateContext None => []
  | windows_CertFreeCertificateChain ctx => [Release (ChainContext ctx)]
  | store_Close store => [Release (KeyManagementHandle store)]
  end.

(** The results of [setupTLSFromWindowsCertStore]; a nil slice is the empty
    list. *)
Definition Ret : Type := list grpc.ServerOption * option Error.

Record FnState : Type := {
  trace : list event;
  deferred : list DeferredCall
}.

Inductive flow (A : Type) : Type :=
| Next (a : A)
| Return (r : Ret)
| Panic (msg : string).
Arguments Next {A} a.
Arguments Return {A} r.
Arguments Panic {A} msg.

Definition Fn (A : Type) : Type := FnState -> FnState * flow A.

Definition ret {A : Type} (a : A) : Fn A := fun st => (st, Next a).

Definition bind {A B : Type} (m : Fn A) (k : A -> Fn B) : Fn B :=
  fun st =>
    match m st with
    | (st', Next a) => k a st'
    | (st', Return r) => (st', Return r)
    | (st', Panic msg) => (st', Panic msg)
    end.

Notation "x <- m ;; k" := (bind m (fun x => k))
  (at level 61, m at next level, right associativity).
Notation "m ;; k" := (bind m (fun _ => k))
  (at level 61, right associativity).

(** The [return] statement. *)
Definition return_ {A : Type} (r : Ret) : Fn A := fun st => (st, Return r).

Definition panic {A : Type} (msg : string) : Fn A := fun st => (st, Panic msg).

Definition emit (e : event) : Fn unit :=
  fun st => ({| trace := trace st ++ [e]; deferred := deferred st |}, Next tt).

(** The [defer] statement pushes the call on the stack of the function. *)
Definition defer (d : DeferredCall) : Fn unit :=
  fun st => ({| trace := trace st; deferred := d :: deferred st |}, Next tt).

(** [p.f] on a pointer: a nil pointer panics. *)
Definition deref {A : Type} (p : option A) : Fn A :=
  match p with
  | Some a => ret a
  | None => panic "invalid memory address or nil pointer dereference"
  end.

(** [s[i]]: an index out of range panics. *)
Definition index {A : Type} (s : list A) (i : nat) : Fn A :=
  match nth_error s i with
  | Some a => ret a
  | None => panic "index out of range"
  end.

(** [for i := start; i < start + count; i++ { body }], the body working on
    the local variables [s]; [continue] is [ret s]. *)
Fixpoint for_range {L : Type} (start count : nat) (body : nat -> L -> Fn L) (s : L) : Fn L :=
  match count with
  | 0 => ret s
  | S count' => s' <- body start s ;; for_range (S start) count' body s'
  end.

Definition log_Infof (msg : string) : Fn unit := emit (Log LevelInfo msg None).

Definition log_Errorf (err : option Error) (msg : string) : Fn unit := emit (Log LevelError msg err).

(** How a call of the function ends. *)
Inductive outcome : Type :=
| Returned (r : Ret)
| Panicked (msg : string).

Definition init : FnState := {| trace := []; deferred := [] |}.

(** A call runs the body, then the deferred calls, last deferred first. *)
Definition call (body : Fn Ret) : list event * outcome :=
  match body init with
  | (st, Next r) | (st, Return r) =>
      (trace st ++ flat_map exec_deferred (deferred st), Returned r)
  | (st, Panic msg) =>
      (trace st ++ flat_map exec_deferred (deferred st), Panicked msg)
  end.

(** ** server_windows.go *)

(** [apply] takes the context and the configuration and does nothing. *)
Definition apply (ctx : unit) (config : srvconfig.Config) : option Error := None.

Section ServerWindows.

Variable W : World.

(** The calls into the platform: each records what it acquires. *)

Definition windows_CertOpenStore (storeProvider msgAndCertEncodingType cryptProv flags : Z)
    (para : string) : Fn (result windows.Handle) :=
  match CertOpenStore W storeProvider msgAndCertEncodingType cryptProv flags para with
  | Ok h => emit (Acquire (StoreHandle h)) ;; ret (Ok h)
  | Failed err => ret (Failed err)
  end.

Definition windows_CertFindCertificateInStore (store : windows.Handle)
    (certEncodingType findFlags findType : Z) (findPara : string)
    (prevCertContext : option windows.CertContext)
    : Fn (option windows.CertContext * option Error) :=
  match CertFindCertificateInStore W store certEncodingType findFlags findType findPara
          prevCertContext with
  | Ok (Some c) => emit (Acquire (CertificateReference c)) ;; ret (go_results (Ok (Some c)))
  | r => ret (go_results r)
  end.

Definition x509_ParseCertificate (der : list byte) : Fn (result x509.Certificate) :=
  emit (Parse der) ;; ret (ParseCertificate W der).

Definition windows_CertGetCertificateChain (engine : windows.Handle)
    (leaf : windows.CertContext) (additionalStore : windows.Handle) (flags : Z)
    : Fn (result windows.CertChainContext) :=
  match CertGetCertificateChain W engine leaf additionalStore flags with
  | Ok c => emit (Acquire (ChainContext c)) ;; ret (Ok c)
  | Failed err => ret (Failed err)
  end.

Definition certtostore_OpenWinCertStore (provider container : string)
    (issuers intermediateIssuers : list string) (legacyKey : bool)
    : Fn (result certtostore.WinCertStore) :=
  match OpenWinCertStore W provider container issuers intermediateIssuers legacyKey with
  | Ok s => emit (Acquire (KeyManagementHandle s)) ;; ret (Ok s)
  | Failed err => ret (Failed err)
  end.

Definition store_CertKey (store : certtostore.WinCertStore) (cert : windows.CertContext)
    : Fn (result certtostore.Key) :=
  emit (KeyRequest cert) ;; ret (CertKey W store cert).

(** The local variables of the chain loop. *)
Definition Locals : Type := (x509.CertPool * list (list byte))%type.

(** Lines 110-122: the body of the loop over the elements of chain [i]. *)
Definition elements_body (i : nat) (elements : list windows.CertChainElement)
    (j : nat) (locals : Locals) : Fn Locals :=
  let '(certPool, certChainBytes) := locals in
  if (i =? 0)%nat && (j =? 0)%nat then
    ret (certPool, certChainBytes) (* Skip leaf certificate *)
  else
    element <- index elements j ;;
    let lcertContext := windows.Element_CertContext element in
    let certBytes := make_bytes (windows.Length lcertContext) in
    let certBytes :=
      copy certBytes
        (unsafe_Slice (windows.EncodedCert lcertContext) (windows.Length lcertContext)) in
    let certChainBytes := certChainBytes ++ [certBytes] in
    r <- x509_ParseCertificate certBytes ;;
    match r with
    | Failed err =>
        log_Errorf (Some err) "failed to parse certificate from chain" ;;
        return_ ([], Some (Errorf "failed to parse certificate from chain: %v" (Some err)))
    | Ok cert =>
        ret (x509.AddCert certPool cert, certChainBytes)
    end.

(** Lines 107-124: the body of the loop over the chains. *)
Definition chains_body (chains : list windows.CertSimpleChain)
    (i : nat) (locals : Locals) : Fn Locals :=
  chain <- index chains i ;;
  let elements := unsafe_Slice (windows.Elements chain) (windows.NumElements chain) in
  for_range 0 (windows.NumElements chain) (elements_body i elements) locals.

(** Lines 104-124: the certificate pool and the chain bytes. *)
Definition chain_loop (certChain : windows.CertChainContext) : Fn Locals :=
  let certPool := x509.NewCertPool in
  let chains := unsafe_Slice (windows.Chains certChain) (windows.ChainCount certChain) in
  let certChainBytes := [] in
  for_range 0 (windows.ChainCount certChain) (chains_body chains)
    (certPool, certChainBytes).

(** Lines 142-157: the identity, the configuration and the options. *)
Definition assemble (key : certtostore.Key) (leafCert : x509.Certificate)
    (certPool : x509.CertPool) (certChainBytes : list (list byte)) : tls.Config :=
  let tlsCert := {|
    tls.PrivateKey := key;
    tls.Leaf := leafCert;
    tls.CertificateList := [x509.Raw leafCert] ++ certChainBytes
  |} in
  let tlsConfig := {|
    tls.Certificates := [tlsCert];
    tls.ClientCAs := certPool;
    tls.ClientAuth := tls.NoClientCert
  |} in
  if (0 <? List.length certChainBytes)%nat then
    tls.set_ClientAuth tlsConfig tls.RequireAndVerifyClientCert
  else tlsConfig.

Definition setupTLSFromWindowsCertStore_body (config : srvconfig.Config) : Fn Ret :=
  let tcpServerOpts : list grpc.ServerOption := [] in
  log_Infof (String.append "Setting up TLS on TCP gRPC services with common name "
               (srvconfig.TCPTLSCName (srvconfig.GRPC config))) ;;
  match UTF16PtrFromString "My" with
  | Failed err =>
      log_Errorf (Some err) "failed to convert store name to UTF16" ;;
      return_ ([], Some (Errorf "failed to convert store name to UTF16: %w" (Some err)))
  | Ok storeName =>
  r <- windows_CertOpenStore windows.CERT_STORE_PROV_SYSTEM
         (Z.lor windows.X509_ASN_ENCODING windows.PKCS_7_ASN_ENCODING) 0
         windows.CERT_SYSTEM_STORE_LOCAL_MACHINE storeName ;;
  match r with
  | Failed err =>
      log_Errorf (Some err) "failed to open certificate store" ;;
      return_ ([], Some (Errorf "failed to open windows certificate store: %w" (Some err)))
  | Ok winStore =>
  defer (windows_CertCloseStore winStore 0) ;;
  match UTF16PtrFromString (srvconfig.TCPTLSCName (srvconfig.GRPC config)) with
  | Failed err =>
      log_Errorf (Some err) "failed to convert common name to UTF16" ;;
      return_ ([], Some (Errorf "failed to convert common name to UTF16: %w" (Some err)))
  | Ok commonName =>
  (* Find the certificate by common name in the Windows Certificate Store. *)
  found <- windows_CertFindCertificateInStore winStore
             (Z.lor windows.X509_ASN_ENCODING windows.PKCS_7_ASN_ENCODING)
             0 windows.CERT_FIND_SUBJECT_STR commonName None ;;
  let '(certContext, err) := found in
  if not_nil err || is_nil certContext then
    log_Errorf err "failed to find certificate in store" ;;
    return_ ([], Some (Errorf "failed to find certificate in store: %w" err))
  else
  defer (windows_CertFreeCertificateContext certContext) ;;
  (* Parse the leaf certificate from certContext *)
  cert <- deref certContext ;;
  let certDER := unsafe_Slice (windows.EncodedCert cert) (windows.Length cert) in
  r <- x509_ParseCertificate certDER ;;
  match r with
  | Failed err =>
      log_Errorf (Some err) "failed to parse leaf certificate" ;;
      return_ ([], Some (Errorf "failed to parse leaf certificate: %w" (Some err)))
  | Ok leafCert =>
  (* Retrieve the certificate chain *)
  r <- windows_CertGetCertificateChain 0%Z cert 0%Z 0%Z ;;
  match r with
  | Failed err =>
      log_Errorf (Some err) "failed to retrieve certificate chain" ;;
      return_ ([], Some (Errorf "failed to retrieve certificate chain: %w" (Some err)))
  | Ok certChain =>
  defer (windows_CertFreeCertificateChain certChain) ;;
  (* Convert the certificate chain to a certificate pool *)
  locals <- chain_loop certChain ;;
  let '(certPool, certChainBytes) := locals in
  (* Open the Windows Certificate Store to retrieve the private key. *)
  r <- certtostore_OpenWinCertStore certtostore.ProviderMSSoftware ""
         [x509.CommonName (x509.Issuer leafCert)] [] false ;;
  match r with
  | Failed err =>
      log_Errorf (Some err) "failed to open Windows Certificate Store" ;;
      return_ ([], Some (Errorf "failed to open Windows Certificate Store: %w" (Some err)))
  | Ok store =>
  defer (store_Close store) ;;
  r <- store_CertKey store cert ;;
  match r with
  | Failed err =>
      log_Errorf (Some err) "failed to retrieve private key" ;;
      return_ ([], Some (Errorf "failed to retrieve private key: %w" (Some err)))
  | Ok key =>
  let tlsConfig := assemble key leafCert certPool certChainBytes in
  let tcpServerOpts := tcpServerOpts ++ [grpc.Creds (credentials.NewTLS tlsConfig)] in
  log_Infof "Loaded TLS configuration successfully" ;;
  return_ (tcpServerOpts, None)
  end end end end end end end.

(** [setupTLSFromWindowsCertStore] sets up TLS configuration using
    certificates from Windows Certificate Store. *)
Definition setupTLSFromWindowsCertStore (config : srvconfig.Config) : list event * outcome :=
  call (setupTLSFromWindowsCertStore_body config).

End ServerWindows.

(** ** The other platforms *)

Module server_other.

Definition apply (ctx : unit) (config : srvconfig.Config) : option Error := None.

(** [setupTLSFromWindowsCertStore] is a NOOP on non-Windows platforms. *)
Definition setupTLSFromWindowsCertStore (config : srvconfig.Config) : Ret :=
  ([], None).

End server_other.

(** ** The data model of the specification *)

(** The elements of a list with their indices, counted from [start]. *)
Definition enumerate_from {A : Type} (start : nat) (l : list A) : list (nat * A) :=
  combine (seq start (List.length l)) l.

(** Every element of every chain with its chain index and its element
    index, in the order in which the chains and their elements come. *)
Definition indexed_elements_from (start : nat) (chains : list windows.CertSimpleChain)
    : list (nat * nat * windows.CertChainElement) :=
  flat_map
    (fun ic => map (fun je => (fst ic, fst je, snd je))
                   (enumerate_from 0 (windows.Elements (snd ic))))
    (enumerate_from start chains).

Definition indexed_elements (chains : list windows.CertSimpleChain)
    : list (nat * nat * windows.CertChainElement) :=
  indexed_elements_from 0 chains.

(** The leaf sits at chain index 0, element index 0. *)
Definition at_leaf_position (x : nat * nat * windows.CertChainElement) : bool :=
  (fst (fst x) =? 0)%nat && (snd (fst x) =? 0)%nat.

Definition element_bytes (x : nat * nat * windows.CertChainElement) : list byte :=
  windows.EncodedCert (windows.Element_CertContext (snd x)).

(** The elements the chain resolution keeps: all but the one at the leaf
    position. *)
Definition non_skipped (chains : list windows.CertSimpleChain)
    : list (nat * nat * windows.CertChainElement) :=
  filter (fun x => negb (at_leaf_position x)) (indexed_elements chains).

(** The Chain Byte Pool: the raw bytes of the kept elements, in order. *)
Definition chain_byte_pool (certChain : windows.CertChainContext) : list (list byte) :=
  map element_bytes (non_skipped (windows.Chains certChain)).

Section Decoding.

Variable W : World.

(** Decoding a list of encodings, first failure first. *)
Fixpoint decode_all (ders : list (list byte)) : result (list x509.Certificate) :=
  match ders with
  | [] => Ok []
  | der :: rest =>
      match ParseCertificate W der with
      | Failed err => Failed err
      | Ok cert =>
          match decode_all rest with
          | Failed err => Failed err
          | Ok certs => Ok (cert :: certs)
          end
      end
  end.

(** The encodings a decoding pass gets to: all of them, or those up to the
    first that fails. *)
Fixpoint attempted (ders : list (list byte)) : list (list byte) :=
  match ders with
  | [] => []
  | der :: rest =>
      der :: match ParseCertificate W der with
             | Failed _ => []
             | Ok _ => attempted rest
             end
  end.

(** The Certificate Pool built from decoded certificates. *)
Definition pool_of (certs : list x509.Certificate) : x509.CertPool :=
  fold_left x509.AddCert certs x509.NewCertPool.

End Decoding.

(** ** The chain loop, element after element *)

Definition chain_parse_error (err : Error) : Ret :=
  ([], Some (Errorf "failed to parse certificate from chain: %v" (Some err))).

Section ChainLoopModel.

Variable W : World.

(** The loop, element after element: decode, add to the pool, keep the
    bytes; the first failure returns. *)
Fixpoint process (ders : list (list byte)) (locals : Locals) : Fn Locals :=
  match ders with
  | [] => ret locals
  | der :: rest =>
      r <- x509_ParseCertificate W der ;;
      match r with
      | Failed err =>
          log_Errorf (Some err) "failed to parse certificate from chain" ;;
          return_ ([], Some (Errorf "failed to parse certificate from chain: %v" (Some err)))
      | Ok cert =>
          process rest (x509.AddCert (fst locals) cert, snd locals ++ [der])
      end
  end.

(** The encodings the loop over the elements of chain [i] keeps, the
    first element having index [start]. *)
Definition kept_from (i start : nat) (els : list windows.CertChainElement)
    : list (list byte) :=
  map element_bytes
    (filter (fun x => negb (at_leaf_position x))
       (map (fun je => (i, fst je, snd je)) (enumerate_from start els))).

End ChainLoopModel.

(** ** The stages of the pipeline *)

Section Stages.

Variable W : World.
Variable config : srvconfig.Config.

Definition encoding : Z := Z.lor windows.X509_ASN_ENCODING windows.PKCS_7_ASN_ENCODING.

Definition open_store : result windows.Handle :=
  CertOpenStore W windows.CERT_STORE_PROV_SYSTEM encoding 0
    windows.CERT_SYSTEM_STORE_LOCAL_MACHINE "My".

Definition common_name : result string :=
  UTF16PtrFromString (srvconfig.TCPTLSCName (srvconfig.GRPC config)).

Definition find_certificate (winStore : windows.Handle) (commonName : string)
    : result (option windows.CertContext) :=
  CertFindCertificateInStore W winStore encoding 0 windows.CERT_FIND_SUBJECT_STR commonName
    None.

Definition open_key_store (leafCert : x509.Certificate) : result certtostore.WinCertStore :=
  OpenWinCertStore W certtostore.ProviderMSSoftware ""
    [x509.CommonName (x509.Issuer leafCert)] [] false.

(** Store Access succeeded with [winStore]. *)
Definition StoreOpen (winStore : windows.Handle) : Prop :=
  open_store = Ok winStore.

(** The lookup was made on [winStore] and answered [found]. *)
Definition LookedUp (winStore : windows.Handle)
    (found : result (option windows.CertContext)) : Prop :=
  StoreOpen winStore
  /\ exists commonName, common_name = Ok commonName
                        /\ find_certificate winStore commonName = found.

(** Certificate Lookup succeeded with the reference [cert]. *)
Definition CertFound (winStore : windows.Handle) (cert : windows.CertContext) : Prop :=
  LookedUp winStore (Ok (Some cert)).

(** Leaf Parsing succeeded with [leafCert]. *)
Definition LeafParsed (winStore : windows.Handle) (cert : windows.CertContext)
    (leafCert : x509.Certificate) : Prop :=
  CertFound winStore cert
  /\ ParseCertificate W (windows.EncodedCert cert) = Ok leafCert.

(** Chain resolution returned the chain context [certChain]. *)
Definition ChainResolved (winStore : windows.Handle) (cert : windows.CertContext)
    (leafCert : x509.Certificate) (certChain : windows.CertChainContext) : Prop :=
  LeafParsed winStore cert leafCert
  /\ CertGetCertificateChain W 0%Z cert 0%Z 0%Z = Ok certChain.

(** The event that opens every run. *)
Definition first_log : event :=
  Log LevelInfo (String.append "Setting up TLS on TCP gRPC services with common name "
              (srvconfig.TCPTLSCName (srvconfig.GRPC config))) None.

(** The ways a call ends, stage by stage, with the events of each. *)
Inductive exits : list event * outcome -> Prop :=
| exit_store_open err :
    open_store = Failed err ->
    exits ([first_log; Log LevelError "failed to open certificate store" (Some err)],
           Returned ([], Some (Errorf "failed to open windows certificate store: %w"
                                 (Some err))))
| exit_encoding winStore err :
    StoreOpen winStore ->
    common_name = Failed err ->
    exits ([first_log; Acquire (StoreHandle winStore);
            Log LevelError "failed to convert common name to UTF16" (Some err);
            Release (StoreHandle winStore)],
           Returned ([], Some (Errorf "failed to convert common name to UTF16: %w"
                                 (Some err))))
| exit_not_found winStore found :
    LookedUp winStore found ->
    fst (go_results found) = None ->
    exits ([first_log; Acquire (StoreHandle winStore);
            Log LevelError "failed to find certificate in store" (snd (go_results found));
            Release (StoreHandle winStore)],
           Returned ([], Some (Errorf "failed to find certificate in store: %w"
                                 (snd (go_results found)))))
| exit_leaf_parse winStore cert err :
    CertFound winStore cert ->
    ParseCertificate W (windows.EncodedCert cert) = Failed err ->
    exits ([first_log; Acquire (StoreHandle winStore);
            Acquire (CertificateReference cert);
            Parse (windows.EncodedCert cert);
            Log LevelError "failed to parse leaf certificate" (Some err);
            Release (CertificateReference cert);
            Release (StoreHandle winStore)],
           Returned ([], Some (Errorf "failed to parse leaf certificate: %w" (Some err))))
| exit_chain_build winStore cert leafCert err :
    LeafParsed winStore cert leafCert ->
    CertGetCertificateChain W 0%Z cert 0%Z 0%Z = Failed err ->
    exits ([first_log; Acquire (StoreHandle winStore);
            Acquire (CertificateReference cert);
            Parse (windows.EncodedCert cert);
            Log LevelError "failed to retrieve certificate chain" (Some err);
            Release (CertificateReference cert);
            Release (StoreHandle winStore)],
           Returned ([], Some (Errorf "failed to retrieve certificate chain: %w"
                                 (Some err))))
| exit_chain_element winStore cert leafCert certChain err :
    ChainResolved winStore cert leafCert certChain ->
    decode_all W (chain_byte_pool certChain) = Failed err ->
    exits ([first_log; Acquire (StoreHandle winStore);
            Acquire (CertificateReference cert);
            Parse (windows.EncodedCert cert);
            Acquire (ChainContext certChain)]
           ++ map Parse (attempted W (chain_byte_pool certChain))
           ++ [Log LevelError "failed to parse certificate from chain" (Some err);
               Release (ChainContext certChain);
               Release (CertificateReference cert);
               Release (StoreHandle winStore)],
           Returned (chain_parse_error err))
| exit_key_store winStore cert leafCert certChain certs err :
    ChainResolved winStore cert leafCert certChain ->
    decode_all W (chain_byte_pool certChain) = Ok certs ->
    open_key_store leafCert = Failed err ->
    exits ([first_log; Acquire (StoreHandle winStore);
            Acquire (CertificateReference cert);
            Parse (windows.EncodedCert cert);
            Acquire (ChainContext certChain)]
           ++ map Parse (chain_byte_pool certChain)
           ++ [Log LevelError "failed to open Windows Certificate Store" (Some err);
               Release (ChainContext certChain);
               Release (CertificateReference cert);
               Release (StoreHandle winStore)],
           Returned ([], Some (Errorf "failed to open Windows Certificate Store: %w"
                                 (Some err))))
| exit_key winStore cert leafCert certChain certs store err :
    ChainResolved winStore cert leafCert certChain ->
    decode_all W (chain_byte_pool certChain) = Ok certs ->
    open_key_store leafCert = Ok store ->
    CertKey W store cert = Failed err ->
    exits ([first_log; Acquire (StoreHandle winStore);
            Acquire (CertificateReference cert);
            Parse (windows.EncodedCert cert);
            Acquire (ChainContext certChain)]
           ++ map Parse (chain_byte_pool certChain)
           ++ [Acquire (KeyManagementHandle store);
               KeyRequest cert;
               Log LevelError "failed to retrieve private key" (Some err);
               Release (KeyManagementHandle store);
               Release (ChainContext certChain);
               Release (CertificateReference cert);
               Release (StoreHandle winStore)],
           Returned ([], Some (Errorf "failed to retrieve private key: %w" (Some err))))
| exit_assembled winStore cert leafCert certChain certs store key :
    ChainResolved winStore cert leafCert certChain ->
    decode_all W (chain_byte_pool certChain) = Ok certs ->
    open_key_store leafCert = Ok store ->
    CertKey W store cert = Ok key ->
    exits ([first_log; Acquire (StoreHandle winStore);
            Acquire (CertificateReference cert);
            Parse (windows.EncodedCert cert);
            Acquire (ChainContext certChain)]
           ++ map Parse (chain_byte_pool certChain)
           ++ [Acquire (KeyManagementHandle store);
               KeyRequest cert;
               Log LevelInfo "Loaded TLS configuration successfully" None;
               Release (KeyManagementHandle store);
               Release (ChainContext certChain);
               Release (CertificateReference cert);
               Release (StoreHandle winStore)],
           Returned ([grpc.Creds (credentials.NewTLS
                        (assemble key leafCert (pool_of certs) (chain_byte_pool certChain)))],
                     None)).

End Stages.

(** ** The assembled configuration and the handles of a trace *)

(** A configuration is fully assembled when every stage succeeded and it
    is made of their results: one identity with the key obtained for the
    certificate found, the leaf decoded from it and the byte list of the
    leaf's raw bytes followed by the Chain Byte Pool; the pool of the
    certificates decoded from the Chain Byte Pool as client CAs; client
    certificates demanded and verified exactly when the Chain Byte Pool is
    not empty. *)
Definition fully_assembled (W : World) (config : srvconfig.Config)
    (tlsConfig : tls.Config) : Prop :=
  exists winStore cert leafCert certChain certs store key,
    ChainResolved W config winStore cert leafCert certChain
    /\ decode_all W (chain_byte_pool certChain) = Ok certs
    /\ open_key_store W leafCert = Ok store
    /\ CertKey W store cert = Ok key
    /\ tlsConfig
       = {| tls.Certificates :=
              [{| tls.CertificateList := x509.Raw leafCert :: chain_byte_pool certChain;
                  tls.PrivateKey := key;
                  tls.Leaf := leafCert |}];
            tls.ClientCAs := pool_of certs;
            tls.ClientAuth :=
              match chain_byte_pool certChain with
              | [] => tls.NoClientCert
              | _ :: _ => tls.RequireAndVerifyClientCert
              end |}.


Definition acquired (tr : list event) : list OpaqueHandle :=
  flat_map (fun e => match e with Acquire h => [h] | _ => [] end) tr.

Definition released (tr : list event) : list OpaqueHandle :=
  flat_map (fun e => match e with Release h => [h] | _ => [] end) tr.

(** A well-bracketed trace: a body that releases nothing, then the release
    of what the body acquired, last acquired first. *)
Definition well_bracketed (tr : list event) : Prop :=
  exists body,
    tr = body ++ map Release (rev (acquired body))
    /\ released body = []
    /\ NoDup (acquired body).

(** ** Chains as byte lists, error logs and the order of the handles *)

(** The encodings of the elements of one chain, in order. *)
Definition chain_bytes (chain : windows.CertSimpleChain) : list (list byte) :=
  map (fun e => windows.EncodedCert (windows.Element_CertContext e)) (windows.Elements chain).

(** The errors attached to the error-level log events of a trace. *)
Definition error_logs (tr : list event) : list (option Error) :=
  flat_map (fun e => match e with Log LevelError _ err => [err] | _ => [] end) tr.

(** The formats of the errors the function builds, in the order of the
    source. *)
Definition error_formats : list string :=
  ["failed to convert store name to UTF16: %w";
   "failed to open windows certificate store: %w";
   "failed to convert common name to UTF16: %w";
   "failed to find certificate in store: %w";
   "failed to parse leaf certificate: %w";
   "failed to retrieve certificate chain: %w";
   "failed to parse certificate from chain: %v";
   "failed to open Windows Certificate Store: %w";
   "failed to retrieve private key: %w"].

(** The place of a handle in the order of acquisition of the source. *)
Definition handle_rank (h : OpaqueHandle) : nat :=
  match h with
  | StoreHandle _ => 0
  | CertificateReference _ => 1
  | ChainContext _ => 2
  | KeyManagementHandle _ => 3
  end.

(** ** Scenarios *)

Module Scenarios.

Definition leaf_der : list byte := [x30; x01].
Definition intermediate_der : list byte := [x30; x02].
Definition root_der : list byte := [x30; x03].
Definition cross_root_der : list byte := [x30; x04].
Definition garbage_der : list byte := [xff].

Definition ctx (der : list byte) : windows.CertContext :=
  {| windows.EncodingType := 1; windows.EncodedCert := der |}.

Definition chain_of (ders : list (list byte)) : windows.CertSimpleChain :=
  {| windows.Elements := map (fun d => {| windows.Element_CertContext := ctx d |}) ders |}.

Definition context_of (chains : list (list (list byte))) : windows.CertChainContext :=
  {| windows.Chains := map chain_of chains |}.

(** A decoder that accepts the encodings that start with a SEQUENCE tag. *)
Definition parse (der : list byte) : result x509.Certificate :=
  match der with
  | x30 :: _ =>
      Ok {| x509.Raw := der;
            x509.Subject := {| x509.CommonName := "svc.example" |};
            x509.Issuer := {| x509.CommonName := "Example CA" |} |}
  | _ => Failed (ErrorString "x509: malformed certificate")
  end.

Definition key_store : certtostore.WinCertStore :=
  {| certtostore.Prov := 7;
     certtostore.ProvName := certtostore.ProviderMSSoftware;
     certtostore.store_issuers := ["Example CA"] |}.

(** A machine whose store answers the lookup with [found] and the chain
    request with [chain]. *)
Definition machine (found : result (option windows.CertContext))
    (chain : result windows.CertChainContext) : World :=
  {| CertOpenStore := fun _ _ _ _ _ => Ok 4096%Z;
     CertFindCertificateInStore := fun _ _ _ _ _ _ => found;
     ParseCertificate := parse;
     CertGetCertificateChain := fun _ _ _ _ => chain;
     OpenWinCertStore := fun _ _ _ _ _ => Ok key_store;
     CertKey := fun _ _ => Ok {| certtostore.key_handle := 99 |} |}.

Definition config : srvconfig.Config :=
  {| srvconfig.Root := "";
     srvconfig.GRPC := {| srvconfig.Address := "";
                          srvconfig.TCPAddress := "";
                          srvconfig.TCPTLSCName := "svc.example" |} |}.

(** Leaf and one intermediate, no root returned. *)
Definition two_element_chain : World :=
  machine (Ok (Some (ctx leaf_der))) (Ok (context_of [[leaf_der; intermediate_der]])).

(** The leaf alone. *)
Definition leaf_only : World :=
  machine (Ok (Some (ctx leaf_der))) (Ok (context_of [[leaf_der]])).

(** Two trust paths from the leaf, to a root and to a cross-signed root. *)
Definition cross_signed : World :=
  machine (Ok (Some (ctx leaf_der)))
          (Ok (context_of [[leaf_der; intermediate_der; root_der];
                           [leaf_der; intermediate_der; cross_root_der]])).

(** An intermediate that does not decode. *)
Definition broken_intermediate : World :=
  machine (Ok (Some (ctx leaf_der)))
          (Ok (context_of [[leaf_der; garbage_der; root_der]])).

(** No certificate under the common name. *)
Definition no_match : World :=
  machine (Failed (Errno 2148081668)) (Failed (Errno 0)).

(** A lookup that hands back nil without an error. *)
Definition nil_without_error : World :=
  machine (Ok None) (Failed (Errno 0)).

(** A machine described call by call. *)
Definition machine_of (opened : result windows.Handle)
    (found : result (option windows.CertContext))
    (chain : result windows.CertChainContext)
    (keys : result certtostore.WinCertStore)
    (key : result certtostore.Key) : World :=
  {| CertOpenStore := fun _ _ _ _ _ => opened;
     CertFindCertificateInStore := fun _ _ _ _ _ _ => found;
     ParseCertificate := parse;
     CertGetCertificateChain := fun _ _ _ _ => chain;
     OpenWinCertStore := fun _ _ _ _ _ => keys;
     CertKey := fun _ _ => key |}.

Definition the_key : certtostore.Key := {| certtostore.key_handle := 99 |}.

Definition leaf_cert : x509.Certificate :=
  {| x509.Raw := leaf_der;
     x509.Subject := {| x509.CommonName := "svc.example" |};
     x509.Issuer := {| x509.CommonName := "Example CA" |} |}.

Definition intermediate_cert : x509.Certificate :=
  {| x509.Raw := intermediate_der;
     x509.Subject := {| x509.CommonName := "svc.example" |};
     x509.Issuer := {| x509.CommonName := "Example CA" |} |}.

(** A store that cannot be opened. *)
Definition locked_store : World :=
  machine_of (Failed (Errno 5)) (Ok None) (Failed (Errno 0))
             (Failed (Errno 0)) (Failed (Errno 0)).

(** A common name with a NUL character in it. *)
Definition nul_config : srvconfig.Config :=
  {| srvconfig.Root := "";
     srvconfig.GRPC := {| srvconfig.Address := "";
                          srvconfig.TCPAddress := "";
                          srvconfig.TCPTLSCName := String "s" (String zero "vc") |} |}.

(** A certificate in the store that does not decode. *)
Definition broken_leaf : World :=
  machine (Ok (Some (ctx garbage_der))) (Ok (context_of [[garbage_der]])).

(** A certificate for which no chain can be built. *)
Definition no_chain : World :=
  machine (Ok (Some (ctx leaf_der))) (Failed (Errno 2148204810)).

(** A key-management layer that cannot be opened. *)
Definition no_key_store : World :=
  machine_of (Ok 4096%Z) (Ok (Some (ctx leaf_der)))
             (Ok (context_of [[leaf_der; intermediate_der]]))
             (Failed (Errno 2148073494)) (Failed (Errno 0)).

(** A certificate without a private key. *)
Definition no_key : World :=
  machine_of (Ok 4096%Z) (Ok (Some (ctx leaf_der)))
             (Ok (context_of [[leaf_der; intermediate_der]]))
             (Ok key_store) (Failed (Errno 2148073483)).




(** A key-management layer whose keys differ from store to store and from
    certificate to certificate. *)
Definition per_certificate_keys : World :=
  {| CertOpenStore := fun _ _ _ _ _ => Ok 4096%Z;
     CertFindCertificateInStore := fun _ _ _ _ _ _ => Ok (Some (ctx leaf_der));
     ParseCertificate := parse;
     CertGetCertificateChain :=
       fun _ _ _ _ => Ok (context_of [[leaf_der; intermediate_der]]);
     OpenWinCertStore := fun _ _ _ _ _ => Ok key_store;
     CertKey := fun store cert =>
       Ok {| certtostore.key_handle :=
               certtostore.Prov store
               + Z.of_nat (List.length (windows.EncodedCert cert)) |} |}.

(** A chain context whose first chain has no element. *)
Definition empty_first_chain : World :=
  machine (Ok (Some (ctx leaf_der)))
          (Ok (context_of [[]; [intermediate_der; root_der]])).

End Scenarios.

(** ** The Go builtins *)

Lemma unsafe_Slice_all {A : Type} (mem : list A) :
  unsafe_Slice mem (List.length mem) = mem.
Proof. apply firstn_all. Qed.

(** Copying a foreign buffer into a fresh slice of its length yields its
    bytes. *)
Lemma copy_make_bytes (mem : list byte) :
  copy (make_bytes (List.length mem)) (unsafe_Slice mem (List.length mem)) = mem.
Proof.
  unfold copy, make_bytes.
  rewrite unsafe_Slice_all, repeat_length, firstn_all.
  rewrite skipn_all2 by (rewrite repeat_length; lia).
  apply app_nil_r.
Qed.

Lemma enumerate_from_cons {A : Type} (start : nat) (a : A) (l : list A) :
  enumerate_from start (a :: l) = (start, a) :: enumerate_from (S start) l.
Proof. reflexivity. Qed.

(** ** Laws of the function monad *)

Lemma bind_bind {A B C : Type} (m : Fn A) (f : A -> Fn B) (g : B -> Fn C) st :
  bind (bind m f) g st = bind m (fun a => bind (f a) g) st.
Proof.
  unfold bind. destruct (m st) as [st' [a| |]]; reflexivity.
Qed.

Lemma bind_ret {A B : Type} (a : A) (k : A -> Fn B) st :
  bind (ret a) k st = k a st.
Proof. reflexivity. Qed.

Lemma bind_emit {B : Type} (e : event) (k : unit -> Fn B) st :
  bind (emit e) k st = k tt {| trace := trace st ++ [e]; deferred := deferred st |}.
Proof. reflexivity. Qed.

Lemma bind_defer {B : Type} (d : DeferredCall) (k : unit -> Fn B) st :
  bind (defer d) k st = k tt {| trace := trace st; deferred := d :: deferred st |}.
Proof. reflexivity. Qed.

Lemma bind_parse {B : Type} (W : World) (der : list byte)
    (k : result x509.Certificate -> Fn B) st :
  bind (x509_ParseCertificate W der) k st
  = k (ParseCertificate W der) {| trace := trace st ++ [Parse der]; deferred := deferred st |}.
Proof. reflexivity. Qed.

(** ** The chain loop *)

Section ChainLoop.

Variable W : World.

Lemma process_app (a b : list (list byte)) :
  forall locals st,
    process W (a ++ b) locals st = bind (process W a locals) (process W b) st.
Proof.
  induction a as [|der a IH]; intros locals st.
  - reflexivity.
  - simpl app. simpl process. rewrite bind_bind, !bind_parse.
    destruct (ParseCertificate W der) as [cert|err].
    + apply IH.
    + reflexivity.
Qed.

Lemma elements_loop_from (i : nat) (els : list windows.CertChainElement) :
  forall pre locals st,
    for_range (List.length pre) (List.length els) (elements_body W i (pre ++ els)) locals st
    = process W (kept_from i (List.length pre) els) locals st.
Proof.
  induction els as [|e els IH]; intros pre locals st.
  - reflexivity.
  - assert (Hnext : forall locals' st',
      for_range (S (List.length pre)) (List.length els)
        (elements_body W i (pre ++ e :: els)) locals' st'
      = process W (kept_from i (S (List.length pre)) els) locals' st').
    { intros locals' st'.
      specialize (IH (pre ++ [e]) locals' st').
      rewrite <- app_assoc, length_app in IH. simpl in IH.
      rewrite Nat.add_1_r in IH. exact IH. }
    destruct locals as [certPool certChainBytes].
    unfold kept_from. rewrite enumerate_from_cons. simpl map. simpl filter.
    unfold at_leaf_position at 1. simpl fst. simpl snd.
    change (for_range (List.length pre) (List.length (e :: els))
              (elements_body W i (pre ++ e :: els)) (certPool, certChainBytes) st)
      with (bind (elements_body W i (pre ++ e :: els) (List.length pre)
                    (certPool, certChainBytes))
              (for_range (S (List.length pre)) (List.length els)
                 (elements_body W i (pre ++ e :: els))) st).
    unfold elements_body at 1.
    destruct ((i =? 0)%nat && (List.length pre =? 0)%nat) eqn:Hleaf.
    + rewrite bind_ret. simpl negb. cbv iota. apply Hnext.
    + simpl negb. cbv iota. unfold index.
      rewrite nth_error_app2 by lia. rewrite Nat.sub_diag. simpl nth_error.
      rewrite bind_bind, bind_ret.
      unfold windows.Length. rewrite copy_make_bytes.
      simpl map. unfold element_bytes at 1. simpl snd.
      simpl process. rewrite bind_bind, !bind_parse.
      destruct (ParseCertificate W (windows.EncodedCert (windows.Element_CertContext e)))
        as [cert|err].
      * rewrite bind_ret. apply Hnext.
      * reflexivity.
Qed.

Lemma elements_loop_spec (i : nat) (chain : windows.CertSimpleChain) locals st :
  for_range 0 (windows.NumElements chain)
    (elements_body W i (unsafe_Slice (windows.Elements chain) (windows.NumElements chain)))
    locals st
  = process W (kept_from i 0 (windows.Elements chain)) locals st.
Proof.
  unfold windows.NumElements. rewrite unsafe_Slice_all.
  apply (elements_loop_from i (windows.Elements chain) []).
Qed.

Lemma chains_loop_from (chains : list windows.CertSimpleChain) :
  forall pre locals st,
    for_range (List.length pre) (List.length chains) (chains_body W (pre ++ chains)) locals st
    = process W
        (map element_bytes
           (filter (fun x => negb (at_leaf_position x))
              (indexed_elements_from (List.length pre) chains)))
        locals st.
Proof.
  induction chains as [|c chains IH]; intros pre locals st.
  - reflexivity.
  - unfold indexed_elements_from. rewrite enumerate_from_cons.
    simpl flat_map. simpl fst. simpl snd.
    rewrite filter_app, map_app, process_app.
    change (for_range (List.length pre) (List.length (c :: chains))
              (chains_body W (pre ++ c :: chains)) locals st)
      with (bind (chains_body W (pre ++ c :: chains) (List.length pre) locals)
              (for_range (S (List.length pre)) (List.length chains)
                 (chains_body W (pre ++ c :: chains))) st).
    unfold chains_body at 1. unfold index.
    rewrite nth_error_app2 by lia. rewrite Nat.sub_diag. simpl nth_error.
    unfold bind at 2. unfold ret at 1.
    unfold bind at 1. rewrite elements_loop_spec.
    fold (kept_from (List.length pre) 0 (windows.Elements c)).
    unfold bind.
    destruct (process W (kept_from (List.length pre) 0 (windows.Elements c)) locals st)
      as [st' [locals'| |]]; try reflexivity.
    specialize (IH (pre ++ [c]) locals' st').
    rewrite <- app_assoc, length_app in IH. simpl in IH.
    rewrite Nat.add_1_r in IH. exact IH.
Qed.

Lemma chain_loop_process (certChain : windows.CertChainContext) st :
  chain_loop W certChain st
  = process W (chain_byte_pool certChain) (x509.NewCertPool, []) st.
Proof.
  unfold chain_loop, windows.ChainCount. rewrite unsafe_Slice_all.
  apply (chains_loop_from (windows.Chains certChain) []).
Qed.

End ChainLoop.

Section ChainLoopSpec.

Variable W : World.

Lemma process_spec (ders : list (list byte)) :
  forall certPool certChainBytes st,
    process W ders (certPool, certChainBytes) st
    = match decode_all W ders with
      | Ok certs =>
          ({| trace := trace st ++ map Parse ders; deferred := deferred st |},
           Next (fold_left x509.AddCert certs certPool, certChainBytes ++ ders))
      | Failed err =>
          ({| trace := trace st ++ map Parse (attempted W ders)
                         ++ [Log LevelError "failed to parse certificate from chain" (Some err)];
              deferred := deferred st |},
           Return (chain_parse_error err))
      end.
Proof.
  induction ders as [|der ders IH]; intros certPool certChainBytes st.
  - destruct st as [tr ds]. simpl. rewrite !app_nil_r. reflexivity.
  - simpl process. rewrite bind_parse. simpl decode_all. simpl attempted.
    destruct (ParseCertificate W der) as [cert|err].
    + simpl fst. simpl snd. rewrite IH.
      destruct (decode_all W ders) as [certs|err]; simpl;
        rewrite <- !app_assoc; reflexivity.
    + unfold log_Errorf. rewrite bind_emit. unfold return_. simpl.
      rewrite <- !app_assoc. reflexivity.
Qed.

End ChainLoopSpec.

(** The indices of an enumeration are the positions of its elements. *)
Lemma In_enumerate_from {A : Type} (l : list A) :
  forall start i x,
    In (i, x) (enumerate_from start l)
    <-> start <= i /\ nth_error l (i - start) = Some x.
Proof.
  induction l as [|a l IH]; intros start i x.
  - simpl. split; [tauto|]. intros [_ H]. destruct (i - start); discriminate.
  - rewrite enumerate_from_cons. simpl In. rewrite IH. split.
    + intros [H|[Hle H]].
      * inversion H; subst. rewrite Nat.sub_diag. split; [lia|reflexivity].
      * split; [lia|]. replace (i - start) with (S (i - S start)) by lia. exact H.
    + intros [Hle H]. destruct (Nat.eq_dec i start) as [->|Hne].
      * left. rewrite Nat.sub_diag in H. simpl in H. congruence.
      * right. split; [lia|].
        replace (i - start) with (S (i - S start)) in H by lia. exact H.
Qed.

(** The kept elements are those of position other than chain 0, element 0. *)
Lemma In_non_skipped (chains : list windows.CertSimpleChain) i j e :
  In (i, j, e) (non_skipped chains)
  <-> (exists chain, nth_error chains i = Some chain
                     /\ nth_error (windows.Elements chain) j = Some e)
      /\ ~ (i = 0 /\ j = 0).
Proof.
  unfold non_skipped, indexed_elements, indexed_elements_from.
  rewrite filter_In, in_flat_map.
  assert (Hpos : negb (at_leaf_position (i, j, e)) = true <-> ~ (i = 0 /\ j = 0)).
  { unfold at_leaf_position. simpl.
    rewrite negb_true_iff, andb_false_iff, !Nat.eqb_neq. lia. }
  rewrite Hpos. split.
  - intros [[[i' chain] [Hchain Hel]] Hne]. split; [|exact Hne].
    apply In_enumerate_from in Hchain. destruct Hchain as [_ Hchain].
    rewrite Nat.sub_0_r in Hchain.
    apply in_map_iff in Hel. destruct Hel as [[j' e'] [Heq Hel]].
    simpl in Heq. inversion Heq; subst.
    apply In_enumerate_from in Hel. destruct Hel as [_ Hel].
    rewrite Nat.sub_0_r in Hel. exists chain. split; assumption.
  - intros [[chain [Hchain Hel]] Hne]. split; [|exact Hne].
    exists (i, chain). split.
    + apply In_enumerate_from. rewrite Nat.sub_0_r. split; [lia|exact Hchain].
    + apply in_map_iff. exists (j, e). split; [reflexivity|].
      apply In_enumerate_from. rewrite Nat.sub_0_r. split; [lia|exact Hel].
Qed.

(** ** The exits of a call *)

Section Exits.

Variable W : World.
Variable config : srvconfig.Config.

Lemma bind_chain_loop {B : Type} (certChain : windows.CertChainContext)
    (k : Locals -> Fn B) st :
  bind (chain_loop W certChain) k st
  = match decode_all W (chain_byte_pool certChain) with
    | Ok certs =>
        k (pool_of certs, chain_byte_pool certChain)
          {| trace := trace st ++ map Parse (chain_byte_pool certChain);
             deferred := deferred st |}
    | Failed err =>
        ({| trace := trace st ++ map Parse (attempted W (chain_byte_pool certChain))
                       ++ [Log LevelError "failed to parse certificate from chain" (Some err)];
            deferred := deferred st |},
         Return (chain_parse_error err))
    end.
Proof.
  unfold bind. rewrite chain_loop_process, process_spec.
  destruct (decode_all W (chain_byte_pool certChain)); reflexivity.
Qed.

(** Every call ends in one of these ways. *)
Lemma setupTLSFromWindowsCertStore_exits :
  exits W config (setupTLSFromWindowsCertStore W config).
Proof.
  unfold setupTLSFromWindowsCertStore, call, setupTLSFromWindowsCertStore_body.
  unfold log_Infof, log_Errorf. rewrite bind_emit.
  change (UTF16PtrFromString "My") with (@Ok string "My").
  cbv iota.
  unfold windows_CertOpenStore.
  destruct (CertOpenStore W _ _ _ _ _) as [winStore|err] eqn:Hopen.
  2:{ simpl. apply exit_store_open. exact Hopen. }
  rewrite bind_bind, bind_emit, bind_ret, bind_defer.
  destruct (UTF16PtrFromString _) as [commonName|err] eqn:Hname.
  2:{ simpl. apply exit_encoding; assumption. }
  unfold windows_CertFindCertificateInStore.
  destruct (CertFindCertificateInStore W _ _ _ _ _ _) as [[cert|]|err] eqn:Hfind.
  2:{ simpl. 
      apply (exit_not_found W config winStore (Ok None)); [|reflexivity].
      split; [exact Hopen|]. exists commonName. split; assumption. }
  2:{ simpl.
      apply (exit_not_found W config winStore (Failed err)); [|reflexivity].
      split; [exact Hopen|]. exists commonName. split; assumption. }
  assert (Hfound : CertFound W config winStore cert).
  { split; [exact Hopen|]. exists commonName. split; assumption. }
  rewrite bind_bind, bind_emit, bind_ret.
  change (go_results (Ok (Some cert))) with (Some cert, @None Error).
  cbv iota beta.
  change (not_nil (@None Error) || is_nil (Some cert)) with false.
  cbv iota.
  rewrite bind_defer. simpl deref. rewrite bind_ret.
  unfold windows.Length at 1. rewrite unsafe_Slice_all. rewrite bind_parse.
  destruct (ParseCertificate W (windows.EncodedCert cert)) as [leafCert|err] eqn:Hleaf.
  2:{ simpl. apply exit_leaf_parse; assumption. }
  assert (Hparsed : LeafParsed W config winStore cert leafCert) by (split; assumption).
  unfold windows_CertGetCertificateChain.
  destruct (CertGetCertificateChain W 0%Z cert 0%Z 0%Z) as [certChain|err] eqn:Hchain.
  2:{ simpl. apply (exit_chain_build W config winStore cert leafCert); assumption. }
  assert (Hresolved : ChainResolved W config winStore cert leafCert certChain) by (split; assumption).
  rewrite bind_bind, bind_emit, bind_ret, bind_defer, bind_chain_loop.
  destruct (decode_all W (chain_byte_pool certChain)) as [certs|err] eqn:Hdecode.
  2:{ simpl. rewrite <- ?app_assoc.
      apply (exit_chain_element W config winStore cert leafCert certChain); assumption. }
  cbv iota beta.
  unfold certtostore_OpenWinCertStore.
  destruct (OpenWinCertStore W _ _ _ _ _) as [store|err] eqn:Hstore.
  2:{ simpl. rewrite <- ?app_assoc.
      apply (exit_key_store W config winStore cert leafCert certChain certs); assumption. }
  rewrite bind_bind, bind_emit, bind_ret, bind_defer.
  unfold store_CertKey. rewrite bind_bind, bind_emit, bind_ret.
  destruct (CertKey W store cert) as [key|err] eqn:Hkey.
  2:{ simpl. rewrite <- ?app_assoc.
      apply (exit_key W config winStore cert leafCert certChain certs store); assumption. }
  simpl. rewrite <- ?app_assoc.
  apply (exit_assembled W config winStore cert leafCert certChain certs store key); assumption.
Qed.

End Exits.

(** ** Facts about the stages *)

Section StageFacts.

Variable W : World.
Variable config : srvconfig.Config.

(** The oracles are functions: a stage has one answer. *)
Lemma LookedUp_fun winStore found winStore' found' :
  LookedUp W config winStore found ->
  LookedUp W config winStore' found' ->
  winStore = winStore' /\ found = found'.
Proof.
  intros [Hopen [name [Hname Hfind]]] [Hopen' [name' [Hname' Hfind']]].
  unfold StoreOpen in *.
  assert (winStore = winStore') by congruence. subst winStore'.
  assert (name = name') by congruence. subst name'.
  split; congruence.
Qed.

Lemma ChainResolved_fun winStore cert leafCert certChain
    winStore' cert' leafCert' certChain' :
  ChainResolved W config winStore cert leafCert certChain ->
  ChainResolved W config winStore' cert' leafCert' certChain' ->
  winStore = winStore' /\ cert = cert' /\ leafCert = leafCert' /\ certChain = certChain'.
Proof.
  intros [[Hfound Hleaf] Hchain] [[Hfound' Hleaf'] Hchain'].
  destruct (LookedUp_fun _ _ _ _ Hfound Hfound') as [-> Heq].
  assert (cert = cert') by congruence. subst cert'.
  repeat split; congruence.
Qed.

(** A run that returns options went through every stage. *)
Lemma success_inv tr opts :
  setupTLSFromWindowsCertStore W config = (tr, Returned (opts, None)) ->
  exists winStore cert leafCert certChain certs store key,
    ChainResolved W config winStore cert leafCert certChain
    /\ decode_all W (chain_byte_pool certChain) = Ok certs
    /\ open_key_store W leafCert = Ok store
    /\ CertKey W store cert = Ok key
    /\ opts = [grpc.Creds (credentials.NewTLS
                 (assemble key leafCert (pool_of certs) (chain_byte_pool certChain)))].
Proof.
  intros Hrun.
  pose proof (setupTLSFromWindowsCertStore_exits W config) as E.
  rewrite Hrun in E.
  inversion E; subst.
  exists winStore, cert, leafCert, certChain, certs, store, key.
  repeat (split; [assumption|]). reflexivity.
Qed.

(** A lookup that hands back no reference ends the run at once. *)
Lemma lookup_failure_run winStore found :
  LookedUp W config winStore found ->
  fst (go_results found) = None ->
  setupTLSFromWindowsCertStore W config
  = ([first_log config; Acquire (StoreHandle winStore);
      Log LevelError "failed to find certificate in store" (snd (go_results found));
      Release (StoreHandle winStore)],
     Returned ([], Some (Errorf "failed to find certificate in store: %w"
                           (snd (go_results found))))).
Proof.
  intros Hlook Hnil.
  pose proof (setupTLSFromWindowsCertStore_exits W config) as E.
  destruct E as
    [ err Hopen
    | winStore' err Hopen Hname
    | winStore' found' Hlook' Hnil'
    | winStore' cert err Hfound Hleaf
    | winStore' cert leafCert err [Hfound Hleaf] Hchain
    | winStore' cert leafCert certChain err [[Hfound Hleaf] Hchain] Hdecode
    | winStore' cert leafCert certChain certs err [[Hfound Hleaf] Hchain] Hdecode Hstore
    | winStore' cert leafCert certChain certs store err [[Hfound Hleaf] Hchain] Hdecode Hstore Hkey
    | winStore' cert leafCert certChain certs store key [[Hfound Hleaf] Hchain] Hdecode Hstore Hkey ];
    try (destruct (LookedUp_fun _ _ _ _ Hlook Hfound) as [_ ->]; discriminate Hnil).
  - destruct Hlook as [Hopen' _]. unfold StoreOpen in Hopen'. congruence.
  - destruct Hlook as [_ [name [Hname' _]]]. congruence.
  - destruct (LookedUp_fun _ _ _ _ Hlook Hlook') as [-> ->]. reflexivity.
Qed.

(** Decoding fails exactly when some encoding does not decode; the error
    is that of the first one. *)
Lemma decode_all_Failed (ders : list (list byte)) :
  (exists der err, In der ders /\ ParseCertificate W der = Failed err)
  -> exists der err, In der ders /\ ParseCertificate W der = Failed err
                     /\ decode_all W ders = Failed err.
Proof.
  induction ders as [|d ders IH]; intros [der [err [Hin Hfail]]].
  - contradiction.
  - simpl decode_all.
    destruct (ParseCertificate W d) as [c|e] eqn:Hd.
    + destruct Hin as [->|Hin]; [congruence|].
      destruct IH as [der' [err' [Hin' [Hfail' Hdec]]]]; [eauto|].
      exists der', err'. rewrite Hdec. repeat split; [right|..]; assumption.
    + exists d, e. repeat split; [left; reflexivity|assumption].
Qed.

Lemma decode_all_length (ders : list (list byte)) :
  forall certs, decode_all W ders = Ok certs -> List.length certs = List.length ders.
Proof.
  induction ders as [|d ders IH]; intros certs H; simpl in H.
  - inversion H. reflexivity.
  - destruct (ParseCertificate W d); [|discriminate].
    destruct (decode_all W ders) as [certs'|]; [|discriminate].
    inversion H. simpl. f_equal. apply IH. reflexivity.
Qed.

End StageFacts.

(** ** The pool and the assembled configuration *)

Lemma AddCert_not_empty (s : x509.CertPool) (cert : x509.Certificate) :
  x509.AddCert s cert <> [].
Proof.
  unfold x509.AddCert. destruct (x509.contains s cert) eqn:H.
  - destruct s; [discriminate H|discriminate].
  - destruct s; discriminate.
Qed.

Lemma fold_AddCert_not_empty (certs : list x509.Certificate) :
  forall s, s <> [] -> fold_left x509.AddCert certs s <> [].
Proof.
  induction certs as [|c certs IH]; intros s Hs; simpl.
  - exact Hs.
  - apply IH, AddCert_not_empty.
Qed.

Lemma pool_of_not_empty (certs : list x509.Certificate) :
  certs <> [] -> pool_of certs <> [].
Proof.
  destruct certs as [|c certs]; [congruence|]. intros _.
  unfold pool_of. simpl. apply fold_AddCert_not_empty, AddCert_not_empty.
Qed.

Lemma assemble_ClientAuth key leafCert certPool (certChainBytes : list (list byte)) :
  tls.ClientAuth (assemble key leafCert certPool certChainBytes)
  = match certChainBytes with
    | [] => tls.NoClientCert
    | _ :: _ => tls.RequireAndVerifyClientCert
    end.
Proof. destruct certChainBytes; reflexivity. Qed.

Lemma assemble_eq key leafCert certPool (certChainBytes : list (list byte)) :
  assemble key leafCert certPool certChainBytes
  = {| tls.Certificates :=
         [{| tls.CertificateList := x509.Raw leafCert :: certChainBytes;
             tls.PrivateKey := key;
             tls.Leaf := leafCert |}];
       tls.ClientCAs := certPool;
       tls.ClientAuth :=
         match certChainBytes with
         | [] => tls.NoClientCert
         | _ :: _ => tls.RequireAndVerifyClientCert
         end |}.
Proof. destruct certChainBytes; reflexivity. Qed.

Lemma assemble_ClientCAs key leafCert certPool (certChainBytes : list (list byte)) :
  tls.ClientCAs (assemble key leafCert certPool certChainBytes) = certPool.
Proof. destruct certChainBytes; reflexivity. Qed.

Lemma assemble_Certificates key leafCert certPool (certChainBytes : list (list byte)) :
  tls.Certificates (assemble key leafCert certPool certChainBytes)
  = [{| tls.PrivateKey := key;
        tls.Leaf := leafCert;
        tls.CertificateList := x509.Raw leafCert :: certChainBytes |}].
Proof. destruct certChainBytes; reflexivity. Qed.

(** ** Handles in a trace *)

Lemma acquired_app (a b : list event) : acquired (a ++ b) = acquired a ++ acquired b.
Proof. apply flat_map_app. Qed.

Lemma released_app (a b : list event) : released (a ++ b) = released a ++ released b.
Proof. apply flat_map_app. Qed.

Lemma acquired_Parse (ders : list (list byte)) : acquired (map Parse ders) = [].
Proof. induction ders; [reflexivity|assumption]. Qed.

Lemma released_Parse (ders : list (list byte)) : released (map Parse ders) = [].
Proof. induction ders; [reflexivity|assumption]. Qed.

(** ** The properties of the pipeline *)

(** C2: in every successful run the configuration demands and verifies
    client certificates if and only if the Chain Byte Pool of the resolved
    chain context is not empty; with an empty pool the client authentication
    keeps its default, no client certificate. *)
Theorem client_auth_iff_chain_bytes (W : World) (config : srvconfig.Config) tr opts :
  setupTLSFromWindowsCertStore W config = (tr, Returned (opts, None)) ->
  exists winStore cert leafCert certChain tlsConfig,
    ChainResolved W config winStore cert leafCert certChain
    /\ opts = [grpc.Creds (credentials.NewTLS tlsConfig)]
    /\ (tls.ClientAuth tlsConfig = tls.RequireAndVerifyClientCert
        <-> chain_byte_pool certChain <> [])
    /\ (chain_byte_pool certChain = [] -> tls.ClientAuth tlsConfig = tls.NoClientCert).
Proof.
  intros Hrun.
  destruct (success_inv W config tr opts Hrun)
    as (winStore & cert & leafCert & certChain & certs & store & key
        & Hresolved & _ & _ & _ & ->).
  exists winStore, cert, leafCert, certChain.
  eexists. split; [exact Hresolved|]. split; [reflexivity|].
  rewrite assemble_ClientAuth.
  destruct (chain_byte_pool certChain); split.
  - split; [discriminate|congruence].
  - reflexivity.
  - split; [discriminate|reflexivity].
  - discriminate.
Qed.

Lemma client_auth_iff_chain_bytes_two_element_chain :
  exists winStore cert leafCert certChain tlsConfig,
    ChainResolved Scenarios.two_element_chain Scenarios.config winStore cert leafCert certChain
    /\ snd (setupTLSFromWindowsCertStore Scenarios.two_element_chain Scenarios.config)
       = Returned ([grpc.Creds (credentials.NewTLS tlsConfig)], None)
    /\ tls.ClientAuth tlsConfig = tls.RequireAndVerifyClientCert
    /\ chain_byte_pool certChain = [Scenarios.intermediate_der].
Proof.
  destruct (client_auth_iff_chain_bytes Scenarios.two_element_chain Scenarios.config
              _ _ eq_refl)
    as (winStore & cert & leafCert & certChain & tlsConfig & Hresolved & Hopts & Hiff & _).
  exists winStore, cert, leafCert, certChain, tlsConfig.
  split; [exact Hresolved|].
  injection Hopts as <-.
  split; [reflexivity|]. split; [reflexivity|].
  destruct Hresolved as [_ Hchain]. simpl in Hchain.
  injection Hchain as <-. reflexivity.
Defined.

(** C3: the chain loop goes through every chain and every element and
    leaves out exactly the element at chain index 0, element index 0.  For
    each other element, in the order met, its bytes are copied and appended
    to the Chain Byte Pool, decoded (one [Parse] event each) and the
    certificate added to the Certificate Pool; an element that does not
    decode ends the loop with the return of the function. *)
Theorem chain_loop_keeps_all_but_the_first (W : World)
    (certChain : windows.CertChainContext) (st : FnState) :
  (forall i j e,
      In (i, j, e) (non_skipped (windows.Chains certChain))
      <-> (exists chain, nth_error (windows.Chains certChain) i = Some chain
                         /\ nth_error (windows.Elements chain) j = Some e)
          /\ ~ (i = 0 /\ j = 0))
  /\ chain_loop W certChain st
     = match decode_all W (chain_byte_pool certChain) with
       | Ok certs =>
           ({| trace := trace st ++ map Parse (chain_byte_pool certChain);
               deferred := deferred st |},
            Next (fold_left x509.AddCert certs x509.NewCertPool, chain_byte_pool certChain))
       | Failed err =>
           ({| trace := trace st ++ map Parse (attempted W (chain_byte_pool certChain))
                          ++ [Log LevelError "failed to parse certificate from chain" (Some err)];
               deferred := deferred st |},
            Return ([], Some (Errorf "failed to parse certificate from chain: %v" (Some err))))
       end.
Proof.
  split.
  - intros i j e. apply In_non_skipped.
  - rewrite chain_loop_process, process_spec. reflexivity.
Qed.

(** C4: when chain resolution returned a chain context and one of its kept
    elements does not decode, the run returns no options and the
    chain-element parse error, which wraps the decoding error of a kept
    element. *)
Theorem chain_element_failure_is_fatal (W : World) (config : srvconfig.Config)
    winStore cert leafCert certChain :
  ChainResolved W config winStore cert leafCert certChain ->
  (exists x err, In x (non_skipped (windows.Chains certChain))
                 /\ ParseCertificate W (element_bytes x) = Failed err) ->
  exists tr x err,
    In x (non_skipped (windows.Chains certChain))
    /\ ParseCertificate W (element_bytes x) = Failed err
    /\ setupTLSFromWindowsCertStore W config
       = (tr, Returned ([], Some (Errorf "failed to parse certificate from chain: %v"
                                    (Some err)))).
Proof.
  intros Hresolved (x & err & Hin & Hfail).
  destruct (decode_all_Failed W (chain_byte_pool certChain))
    as (der & err' & Hder & Hfail' & Hdecode).
  { exists (element_bytes x), err. split; [|exact Hfail].
    unfold chain_byte_pool. apply in_map. exact Hin. }
  unfold chain_byte_pool in Hder. apply in_map_iff in Hder.
  destruct Hder as (x' & <- & Hin').
  pose proof (setupTLSFromWindowsCertStore_exits W config) as E.
  destruct E as
    [ e Hopen
    | winStore' e Hopen Hname
    | winStore' found' Hlook' Hnil'
    | winStore' cert' e Hfound Hleaf
    | winStore' cert' leafCert' e Hparsed Hchain
    | winStore' cert' leafCert' certChain' e Hresolved' Hdecode'
    | winStore' cert' leafCert' certChain' certs e Hresolved' Hdecode' Hstore
    | winStore' cert' leafCert' certChain' certs store e Hresolved' Hdecode' Hstore Hkey
    | winStore' cert' leafCert' certChain' certs store key Hresolved' Hdecode' Hstore Hkey ];
    try (destruct (ChainResolved_fun _ _ _ _ _ _ _ _ _ _ Hresolved Hresolved')
           as (<- & <- & <- & <-); congruence).
  - destruct Hresolved as [[[Hopen' _] _] _]. unfold StoreOpen in Hopen'. congruence.
  - destruct Hresolved as [[[_ (name & Hname' & _)] _] _]. congruence.
  - destruct Hresolved as [[Hfound _] _].
    destruct (LookedUp_fun _ _ _ _ _ _ Hfound Hlook') as [_ <-]. discriminate Hnil'.
  - destruct Hresolved as [[Hfound' Hleaf'] _].
    destruct (LookedUp_fun _ _ _ _ _ _ Hfound Hfound') as [_ Heq].
    injection Heq as ->. congruence.
  - destruct Hresolved as [[Hfound' Hleaf'] Hchain'].
    destruct Hparsed as [Hfound _].
    destruct (LookedUp_fun _ _ _ _ _ _ Hfound Hfound') as [_ Heq].
    injection Heq as ->. congruence.
  - destruct (ChainResolved_fun _ _ _ _ _ _ _ _ _ _ Hresolved Hresolved')
      as (<- & <- & <- & <-).
    assert (e = err') by congruence. subst e.
    eexists. exists x', err'. split; [exact Hin'|]. split; [exact Hfail'|]. reflexivity.
Qed.

Lemma chain_element_failure_is_fatal_broken_intermediate :
  exists tr x err,
    In x (non_skipped [Scenarios.chain_of
                         [Scenarios.leaf_der; Scenarios.garbage_der; Scenarios.root_der]])
    /\ Scenarios.parse (element_bytes x) = Failed err
    /\ setupTLSFromWindowsCertStore Scenarios.broken_intermediate Scenarios.config
       = (tr, Returned ([], Some (Errorf "failed to parse certificate from chain: %v"
                                    (Some err)))).
Proof.
  apply (chain_element_failure_is_fatal Scenarios.broken_intermediate Scenarios.config
           4096%Z (Scenarios.ctx Scenarios.leaf_der)
           {| x509.Raw := Scenarios.leaf_der;
              x509.Subject := {| x509.CommonName := "svc.example" |};
              x509.Issuer := {| x509.CommonName := "Example CA" |} |}
           (Scenarios.context_of
              [[Scenarios.leaf_der; Scenarios.garbage_der; Scenarios.root_der]])).
  - split; [split; [split; [reflexivity|]|reflexivity]|reflexivity].
    exists "svc.example". split; reflexivity.
  - exists (0, 1, {| windows.Element_CertContext := Scenarios.ctx Scenarios.garbage_der |}).
    exists (ErrorString "x509: malformed certificate").
    split; [simpl; tauto|reflexivity].
Defined.

(** C5: in every world (each call answering an error or a result, the
    lookup possibly a nil reference) every call returns, and it returns
    either no error and one option that carries the fully assembled
    configuration (every stage succeeded; key, leaf, byte list, client CAs
    and client authentication are those of the stages), or an error and no
    option.  When the lookup made on the opened store hands back no
    certificate (an error or a nil reference), the result is the
    certificate-not-found error and no option. *)
Theorem all_or_nothing (W : World) (config : srvconfig.Config) :
  ((exists tr tlsConfig,
       setupTLSFromWindowsCertStore W config
       = (tr, Returned ([grpc.Creds (credentials.NewTLS tlsConfig)], None))
       /\ fully_assembled W config tlsConfig)
   \/ (exists tr err,
         setupTLSFromWindowsCertStore W config = (tr, Returned ([], Some err))))
  /\ (forall winStore found,
        LookedUp W config winStore found ->
        fst (go_results found) = None ->
        exists tr cause,
          setupTLSFromWindowsCertStore W config
          = (tr, Returned ([], Some (Errorf "failed to find certificate in store: %w" cause)))).
Proof.
  split.
  - destruct (setupTLSFromWindowsCertStore_exits W config)
      as [ | | | | | | |
         | winStore cert leafCert certChain certs store key Hresolved Hdecode Hstore Hkey ];
      try (right; eexists; eexists; reflexivity).
    left. eexists. eexists. split; [reflexivity|].
    exists winStore, cert, leafCert, certChain, certs, store, key.
    repeat (split; [assumption|]). apply assemble_eq.
  - intros winStore found Hlook Hnil.
    rewrite (lookup_failure_run W config winStore found Hlook Hnil).
    eexists. eexists. reflexivity.
Qed.

Lemma all_or_nothing_no_match :
  exists tr cause,
    setupTLSFromWindowsCertStore Scenarios.no_match Scenarios.config
    = (tr, Returned ([], Some (Errorf "failed to find certificate in store: %w" cause))).
Proof.
  apply (proj2 (all_or_nothing Scenarios.no_match Scenarios.config)
           4096%Z (Failed (Errno 2148081668))).
  - split; [reflexivity|]. exists "svc.example". split; reflexivity.
  - reflexivity.
Defined.

(** C6: on the other platforms the function returns an empty option list
    and no error, whatever the configuration. *)
Theorem other_platforms_noop (config : srvconfig.Config) :
  server_other.setupTLSFromWindowsCertStore config = ([], None).
Proof. reflexivity. Qed.

(** C7: on every exit path the trace is well bracketed: the handles the run
    acquired are pairwise distinct, nothing is released before the exit, and
    at the exit each acquired handle is released, once, the last acquired
    first; nothing else is released. *)
Theorem handles_released_once_in_reverse (W : World) (config : srvconfig.Config) :
  let tr := fst (setupTLSFromWindowsCertStore W config) in
  well_bracketed tr
  /\ NoDup (acquired tr)
  /\ NoDup (released tr)
  /\ released tr = rev (acquired tr).
Proof.
  assert (Hsplit : forall tr, well_bracketed tr ->
            well_bracketed tr /\ NoDup (acquired tr) /\ NoDup (released tr)
            /\ released tr = rev (acquired tr)).
  { intros tr Hwb. split; [exact Hwb|].
    destruct Hwb as (body & -> & Hrel & Hnodup).
    assert (Ha : forall hs, acquired (map Release hs) = []).
    { induction hs; [reflexivity|assumption]. }
    assert (Hr : forall hs, released (map Release hs) = hs).
    { induction hs as [|h hs IH]; [reflexivity|]. simpl. f_equal. exact IH. }
    rewrite acquired_app, released_app, Ha, Hr, Hrel, app_nil_r. simpl.
    split; [exact Hnodup|]. split; [|reflexivity].
    apply NoDup_rev. exact Hnodup. }
  assert (Hdistinct : forall a b c d,
            NoDup [StoreHandle a; CertificateReference b; ChainContext c;
                   KeyManagementHandle d]).
  { intros a b c d.
    repeat constructor; simpl; intuition discriminate. }
  assert (Hdistinct3 : forall a b c,
            NoDup [StoreHandle a; CertificateReference b; ChainContext c]).
  { intros a b c. repeat constructor; simpl; intuition discriminate. }
  assert (Hdistinct2 : forall a b, NoDup [StoreHandle a; CertificateReference b]).
  { intros a b. repeat constructor; simpl; intuition discriminate. }
  intros tr. subst tr. apply Hsplit.
  destruct (setupTLSFromWindowsCertStore_exits W config); simpl fst.
  - exists [first_log config; Log LevelError "failed to open certificate store" (Some err)].
    repeat split. constructor.
  - exists [first_log config; Acquire (StoreHandle winStore);
            Log LevelError "failed to convert common name to UTF16" (Some err)].
    repeat split. repeat constructor. simpl. tauto.
  - exists [first_log config; Acquire (StoreHandle winStore);
            Log LevelError "failed to find certificate in store" (snd (go_results found))].
    repeat split. repeat constructor. simpl. tauto.
  - exists [first_log config; Acquire (StoreHandle winStore);
            Acquire (CertificateReference cert); Parse (windows.EncodedCert cert);
            Log LevelError "failed to parse leaf certificate" (Some err)].
    repeat split. apply Hdistinct2.
  - exists [first_log config; Acquire (StoreHandle winStore);
            Acquire (CertificateReference cert); Parse (windows.EncodedCert cert);
            Log LevelError "failed to retrieve certificate chain" (Some err)].
    repeat split. apply Hdistinct2.
  - exists ([first_log config; Acquire (StoreHandle winStore);
             Acquire (CertificateReference cert); Parse (windows.EncodedCert cert);
             Acquire (ChainContext certChain)]
            ++ map Parse (attempted W (chain_byte_pool certChain))
            ++ [Log LevelError "failed to parse certificate from chain" (Some err)]).
    rewrite !acquired_app, !released_app, acquired_Parse, released_Parse.
    simpl. rewrite <- !app_assoc. repeat split. apply Hdistinct3.
  - exists ([first_log config; Acquire (StoreHandle winStore);
             Acquire (CertificateReference cert); Parse (windows.EncodedCert cert);
             Acquire (ChainContext certChain)]
            ++ map Parse (chain_byte_pool certChain)
            ++ [Log LevelError "failed to open Windows Certificate Store" (Some err)]).
    rewrite !acquired_app, !released_app, acquired_Parse, released_Parse.
    simpl. rewrite <- !app_assoc. repeat split. apply Hdistinct3.
  - exists ([first_log config; Acquire (StoreHandle winStore);
             Acquire (CertificateReference cert); Parse (windows.EncodedCert cert);
             Acquire (ChainContext certChain)]
            ++ map Parse (chain_byte_pool certChain)
            ++ [Acquire (KeyManagementHandle store); KeyRequest cert;
                Log LevelError "failed to retrieve private key" (Some err)]).
    rewrite !acquired_app, !released_app, acquired_Parse, released_Parse.
    simpl. rewrite <- !app_assoc. repeat split. apply Hdistinct.
  - exists ([first_log config; Acquire (StoreHandle winStore);
             Acquire (CertificateReference cert); Parse (windows.EncodedCert cert);
             Acquire (ChainContext certChain)]
            ++ map Parse (chain_byte_pool certChain)
            ++ [Acquire (KeyManagementHandle store); KeyRequest cert;
                Log LevelInfo "Loaded TLS configuration successfully" None]).
    rewrite !acquired_app, !released_app, acquired_Parse, released_Parse.
    simpl. rewrite <- !app_assoc. repeat split. apply Hdistinct.
Qed.

(** C8: in every successful run the configuration carries one identity,
    whose leaf is the certificate decoded from the reference found in the
    store and whose byte list is the leaf's raw bytes followed by the Chain
    Byte Pool of the resolved chain context, in its order. *)
Theorem identity_leaf_first_then_chain (W : World) (config : srvconfig.Config) tr opts :
  setupTLSFromWindowsCertStore W config = (tr, Returned (opts, None)) ->
  exists winStore cert leafCert certChain tlsConfig identity,
    ChainResolved W config winStore cert leafCert certChain
    /\ opts = [grpc.Creds (credentials.NewTLS tlsConfig)]
    /\ tls.Certificates tlsConfig = [identity]
    /\ tls.Leaf identity = leafCert
    /\ tls.CertificateList identity = x509.Raw leafCert :: chain_byte_pool certChain.
Proof.
  intros Hrun.
  destruct (success_inv W config tr opts Hrun)
    as (winStore & cert & leafCert & certChain & certs & store & key
        & Hresolved & _ & _ & _ & ->).
  exists winStore, cert, leafCert, certChain.
  eexists. eexists. split; [exact Hresolved|]. split; [reflexivity|].
  rewrite assemble_Certificates. repeat split.
Qed.

Lemma identity_leaf_first_then_chain_two_element_chain :
  exists tlsConfig identity,
    snd (setupTLSFromWindowsCertStore Scenarios.two_element_chain Scenarios.config)
    = Returned ([grpc.Creds (credentials.NewTLS tlsConfig)], None)
    /\ tls.Certificates tlsConfig = [identity]
    /\ tls.CertificateList identity = [Scenarios.leaf_der; Scenarios.intermediate_der].
Proof.
  destruct (identity_leaf_first_then_chain Scenarios.two_element_chain Scenarios.config
              _ _ eq_refl)
    as (winStore & cert & leafCert & certChain & tlsConfig & identity
        & Hresolved & Hopts & Hid & Hleaf & Hlist).
  exists tlsConfig, identity.
  injection Hopts as <-.
  split; [reflexivity|]. split; [exact Hid|].
  injection Hid as <-. reflexivity.
Defined.

(** C9: in every successful run, a configuration that demands and verifies
    client certificates has a client-CA pool that is not empty. *)
Theorem enforcement_has_trust_anchors (W : World) (config : srvconfig.Config) tr opts :
  setupTLSFromWindowsCertStore W config = (tr, Returned (opts, None)) ->
  exists tlsConfig,
    opts = [grpc.Creds (credentials.NewTLS tlsConfig)]
    /\ (tls.ClientAuth tlsConfig = tls.RequireAndVerifyClientCert ->
        tls.ClientCAs tlsConfig <> []).
Proof.
  intros Hrun.
  destruct (success_inv W config tr opts Hrun)
    as (winStore & cert & leafCert & certChain & certs & store & key
        & _ & Hdecode & _ & _ & ->).
  eexists. split; [reflexivity|].
  rewrite assemble_ClientAuth, assemble_ClientCAs.
  pose proof (decode_all_length W _ _ Hdecode) as Hlen.
  destruct (chain_byte_pool certChain); [discriminate|].
  intros _. apply pool_of_not_empty.
  destruct certs; [discriminate Hlen|discriminate].
Qed.

Lemma enforcement_has_trust_anchors_two_element_chain :
  exists tlsConfig,
    snd (setupTLSFromWindowsCertStore Scenarios.two_element_chain Scenarios.config)
    = Returned ([grpc.Creds (credentials.NewTLS tlsConfig)], None)
    /\ tls.ClientAuth tlsConfig = tls.RequireAndVerifyClientCert
    /\ tls.ClientCAs tlsConfig <> [].
Proof.
  destruct (enforcement_has_trust_anchors Scenarios.two_element_chain Scenarios.config
              _ _ eq_refl)
    as (tlsConfig & Hopts & Hanchors).
  exists tlsConfig. injection Hopts as <-.
  split; [reflexivity|]. split; [reflexivity|].
  apply Hanchors. reflexivity.
Defined.

(** C10: when the lookup hands back a nil reference and no error, the run
    takes the certificate-not-found exit: it returns the error (wrapping the
    nil error) and no option, does not panic, and decodes nothing: the
    store handle is the only handle acquired, and it is released. *)
Theorem nil_reference_is_not_found (W : World) (config : srvconfig.Config) winStore :
  LookedUp W config winStore (Ok None) ->
  setupTLSFromWindowsCertStore W config
  = ([first_log config; Acquire (StoreHandle winStore);
      Log LevelError "failed to find certificate in store" None;
      Release (StoreHandle winStore)],
     Returned ([], Some (Errorf "failed to find certificate in store: %w" None)))
  /\ (forall der, ~ In (Parse der) (fst (setupTLSFromWindowsCertStore W config)))
  /\ (forall msg, snd (setupTLSFromWindowsCertStore W config) <> Panicked msg).
Proof.
  intros Hlook.
  rewrite (lookup_failure_run W config winStore (Ok None) Hlook eq_refl).
  split; [reflexivity|]. split.
  - intros der. simpl. intuition discriminate.
  - intros msg. discriminate.
Qed.

Lemma nil_reference_is_not_found_nil_without_error :
  setupTLSFromWindowsCertStore Scenarios.nil_without_error Scenarios.config
  = ([first_log Scenarios.config; Acquire (StoreHandle 4096%Z);
      Log LevelError "failed to find certificate in store" None;
      Release (StoreHandle 4096%Z)],
     Returned ([], Some (Errorf "failed to find certificate in store: %w" None))).
Proof.
  apply (nil_reference_is_not_found Scenarios.nil_without_error Scenarios.config 4096%Z).
  split; [reflexivity|]. exists "svc.example". split; reflexivity.
Defined.

(** ** The exits determine the call *)

Ltac stage_facts :=
  unfold ChainResolved, LeafParsed, CertFound, LookedUp, StoreOpen in *;
  repeat match goal with
         | H : _ /\ _ |- _ => destruct H
         | H : exists _, _ |- _ => destruct H
         end.

Ltac lookup_cases :=
  repeat match goal with
         | H : fst (go_results ?found) = None |- _ =>
             destruct found as [[?|]|?]; simpl in H; [discriminate H| |]; clear H
         end.

(** A result that fits one of the exits is the result of the call. *)
Lemma exits_run (W : World) (config : srvconfig.Config) (r : list event * outcome) :
  exits W config r -> setupTLSFromWindowsCertStore W config = r.
Proof.
  intros E.
  pose proof (setupTLSFromWindowsCertStore_exits W config) as E'.
  destruct E; destruct E'; stage_facts; lookup_cases; congruence.
Qed.

(** ** Each failure and its result *)

(** X1: when the store cannot be opened, the call returns the store-open
    error, which wraps the error of the platform, and no option; it acquired
    no handle and releases none. *)
Theorem store_open_failure (W : World) (config : srvconfig.Config) err :
  open_store W = Failed err ->
  setupTLSFromWindowsCertStore W config
  = ([first_log config; Log LevelError "failed to open certificate store" (Some err)],
     Returned ([], Some (Errorf "failed to open windows certificate store: %w" (Some err)))).
Proof.
  intros Hopen. apply exits_run, exit_store_open, Hopen.
Qed.

Lemma store_open_failure_locked_store :
  setupTLSFromWindowsCertStore Scenarios.locked_store Scenarios.config
  = ([first_log Scenarios.config;
      Log LevelError "failed to open certificate store" (Some (Errno 5))],
     Returned ([], Some (Errorf "failed to open windows certificate store: %w"
                           (Some (Errno 5))))).
Proof.
  apply (store_open_failure Scenarios.locked_store Scenarios.config (Errno 5)).
  reflexivity.
Defined.

(** X2: a configured common name that holds a NUL character cannot be
    converted: the call returns the conversion error and no option, after
    the store was opened and before any lookup; the store handle is the only
    handle acquired and it is released. *)
Theorem common_name_with_NUL (W : World) (config : srvconfig.Config) winStore :
  StoreOpen W winStore ->
  has_NUL (srvconfig.TCPTLSCName (srvconfig.GRPC config)) = true ->
  setupTLSFromWindowsCertStore W config
  = ([first_log config; Acquire (StoreHandle winStore);
      Log LevelError "failed to convert common name to UTF16" (Some EINVAL);
      Release (StoreHandle winStore)],
     Returned ([], Some (Errorf "failed to convert common name to UTF16: %w" (Some EINVAL)))).
Proof.
  intros Hopen Hnul. apply exits_run, exit_encoding; [exact Hopen|].
  unfold common_name, UTF16PtrFromString. rewrite Hnul. reflexivity.
Qed.

Lemma common_name_with_NUL_two_element_chain :
  setupTLSFromWindowsCertStore Scenarios.two_element_chain Scenarios.nul_config
  = ([first_log Scenarios.nul_config; Acquire (StoreHandle 4096%Z);
      Log LevelError "failed to convert common name to UTF16" (Some EINVAL);
      Release (StoreHandle 4096%Z)],
     Returned ([], Some (Errorf "failed to convert common name to UTF16: %w" (Some EINVAL)))).
Proof.
  apply (common_name_with_NUL Scenarios.two_element_chain Scenarios.nul_config 4096%Z);
    reflexivity.
Defined.

(** X3: when the certificate found does not decode, the call returns the
    leaf parse error wrapping the decoder's error, and no option; no chain
    is requested, and the certificate reference and the store handle are
    released, in this order. *)
Theorem leaf_parse_failure (W : World) (config : srvconfig.Config) winStore cert err :
  CertFound W config winStore cert ->
  ParseCertificate W (windows.EncodedCert cert) = Failed err ->
  setupTLSFromWindowsCertStore W config
  = ([first_log config; Acquire (StoreHandle winStore);
      Acquire (CertificateReference cert);
      Parse (windows.EncodedCert cert);
      Log LevelError "failed to parse leaf certificate" (Some err);
      Release (CertificateReference cert);
      Release (StoreHandle winStore)],
     Returned ([], Some (Errorf "failed to parse leaf certificate: %w" (Some err)))).
Proof.
  intros Hfound Hleaf. apply exits_run, exit_leaf_parse; assumption.
Qed.

Lemma leaf_parse_failure_broken_leaf :
  snd (setupTLSFromWindowsCertStore Scenarios.broken_leaf Scenarios.config)
  = Returned ([], Some (Errorf "failed to parse leaf certificate: %w"
                          (Some (ErrorString "x509: malformed certificate")))).
Proof.
  rewrite (leaf_parse_failure Scenarios.broken_leaf Scenarios.config 4096%Z
             (Scenarios.ctx Scenarios.garbage_der)
             (ErrorString "x509: malformed certificate")).
  - reflexivity.
  - split; [reflexivity|]. exists "svc.example". split; reflexivity.
  - reflexivity.
Defined.

(** X4: when the platform cannot build the chain of the certificate found,
    the call returns the chain error wrapping the platform's error, and no
    option; no chain context is held, and the certificate reference and the
    store handle are released. *)
Theorem chain_build_failure (W : World) (config : srvconfig.Config)
    winStore cert leafCert err :
  LeafParsed W config winStore cert leafCert ->
  CertGetCertificateChain W 0%Z cert 0%Z 0%Z = Failed err ->
  setupTLSFromWindowsCertStore W config
  = ([first_log config; Acquire (StoreHandle winStore);
      Acquire (CertificateReference cert);
      Parse (windows.EncodedCert cert);
      Log LevelError "failed to retrieve certificate chain" (Some err);
      Release (CertificateReference cert);
      Release (StoreHandle winStore)],
     Returned ([], Some (Errorf "failed to retrieve certificate chain: %w" (Some err)))).
Proof.
  intros Hparsed Hchain.
  apply exits_run, (exit_chain_build W config winStore cert leafCert); assumption.
Qed.

Lemma chain_build_failure_no_chain :
  snd (setupTLSFromWindowsCertStore Scenarios.no_chain Scenarios.config)
  = Returned ([], Some (Errorf "failed to retrieve certificate chain: %w"
                          (Some (Errno 2148204810)))).
Proof.
  rewrite (chain_build_failure Scenarios.no_chain Scenarios.config 4096%Z
             (Scenarios.ctx Scenarios.leaf_der) Scenarios.leaf_cert (Errno 2148204810)).
  - reflexivity.
  - split; [split; [reflexivity|]|reflexivity].
    exists "svc.example". split; reflexivity.
  - reflexivity.
Defined.

(** X5: when the chain was decoded and the key-management layer cannot be
    opened, the call returns that error and no option; no key is requested,
    and the chain context, the certificate reference and the store handle
    are released, in this order. *)
Theorem key_store_failure (W : World) (config : srvconfig.Config)
    winStore cert leafCert certChain certs err :
  ChainResolved W config winStore cert leafCert certChain ->
  decode_all W (chain_byte_pool certChain) = Ok certs ->
  open_key_store W leafCert = Failed err ->
  setupTLSFromWindowsCertStore W config
  = ([first_log config; Acquire (StoreHandle winStore);
      Acquire (CertificateReference cert);
      Parse (windows.EncodedCert cert);
      Acquire (ChainContext certChain)]
     ++ map Parse (chain_byte_pool certChain)
     ++ [Log LevelError "failed to open Windows Certificate Store" (Some err);
         Release (ChainContext certChain);
         Release (CertificateReference cert);
         Release (StoreHandle winStore)],
     Returned ([], Some (Errorf "failed to open Windows Certificate Store: %w" (Some err)))).
Proof.
  intros Hresolved Hdecode Hstore.
  apply exits_run, (exit_key_store W config winStore cert leafCert certChain certs);
    assumption.
Qed.

Lemma key_store_failure_no_key_store :
  snd (setupTLSFromWindowsCertStore Scenarios.no_key_store Scenarios.config)
  = Returned ([], Some (Errorf "failed to open Windows Certificate Store: %w"
                          (Some (Errno 2148073494)))).
Proof.
  rewrite (key_store_failure Scenarios.no_key_store Scenarios.config 4096%Z
             (Scenarios.ctx Scenarios.leaf_der) Scenarios.leaf_cert
             (Scenarios.context_of [[Scenarios.leaf_der; Scenarios.intermediate_der]])
             [Scenarios.intermediate_cert] (Errno 2148073494)).
  - reflexivity.
  - split; [split; [split; [reflexivity|]|reflexivity]|reflexivity].
    exists "svc.example". split; reflexivity.
  - reflexivity.
  - reflexivity.
Defined.

(** X6: when the key-management layer has no private key for the
    certificate, the call returns the key error and no option, and all four
    handles are released: key-management handle, chain context, certificate
    reference, store handle. *)
Theorem key_retrieval_failure (W : World) (config : srvconfig.Config)
    winStore cert leafCert certChain certs store err :
  ChainResolved W config winStore cert leafCert certChain ->
  decode_all W (chain_byte_pool certChain) = Ok certs ->
  open_key_store W leafCert = Ok store ->
  CertKey W store cert = Failed err ->
  setupTLSFromWindowsCertStore W config
  = ([first_log config; Acquire (StoreHandle winStore);
      Acquire (CertificateReference cert);
      Parse (windows.EncodedCert cert);
      Acquire (ChainContext certChain)]
     ++ map Parse (chain_byte_pool certChain)
     ++ [Acquire (KeyManagementHandle store);
         KeyRequest cert;
         Log LevelError "failed to retrieve private key" (Some err);
         Release (KeyManagementHandle store);
         Release (ChainContext certChain);
         Release (CertificateReference cert);
         Release (StoreHandle winStore)],
     Returned ([], Some (Errorf "failed to retrieve private key: %w" (Some err)))).
Proof.
  intros Hresolved Hdecode Hstore Hkey.
  apply exits_run, (exit_key W config winStore cert leafCert certChain certs store);
    assumption.
Qed.

Lemma key_retrieval_failure_no_key :
  snd (setupTLSFromWindowsCertStore Scenarios.no_key Scenarios.config)
  = Returned ([], Some (Errorf "failed to retrieve private key: %w"
                          (Some (Errno 2148073483)))).
Proof.
  rewrite (key_retrieval_failure Scenarios.no_key Scenarios.config 4096%Z
             (Scenarios.ctx Scenarios.leaf_der) Scenarios.leaf_cert
             (Scenarios.context_of [[Scenarios.leaf_der; Scenarios.intermediate_der]])
             [Scenarios.intermediate_cert] Scenarios.key_store (Errno 2148073483)).
  - reflexivity.
  - split; [split; [split; [reflexivity|]|reflexivity]|reflexivity].
    exists "svc.example". split; reflexivity.
  - reflexivity.
  - reflexivity.
  - reflexivity.
Defined.

(** X7: when every stage succeeds (store, conversion, lookup, leaf, chain,
    every kept element, key-management layer, key), the call returns no
    error and one option: the configuration assembled from the key, the
    leaf, the pool of the decoded certificates and the Chain Byte Pool. *)
Theorem all_stages_succeed (W : World) (config : srvconfig.Config)
    winStore cert leafCert certChain certs store key :
  ChainResolved W config winStore cert leafCert certChain ->
  decode_all W (chain_byte_pool certChain) = Ok certs ->
  open_key_store W leafCert = Ok store ->
  CertKey W store cert = Ok key ->
  setupTLSFromWindowsCertStore W config
  = ([first_log config; Acquire (StoreHandle winStore);
      Acquire (CertificateReference cert);
      Parse (windows.EncodedCert cert);
      Acquire (ChainContext certChain)]
     ++ map Parse (chain_byte_pool certChain)
     ++ [Acquire (KeyManagementHandle store);
         KeyRequest cert;
         Log LevelInfo "Loaded TLS configuration successfully" None;
         Release (KeyManagementHandle store);
         Release (ChainContext certChain);
         Release (CertificateReference cert);
         Release (StoreHandle winStore)],
     Returned
       ([grpc.Creds (credentials.NewTLS
           {| tls.Certificates :=
                [{| tls.CertificateList := x509.Raw leafCert :: chain_byte_pool certChain;
                    tls.PrivateKey := key;
                    tls.Leaf := leafCert |}];
              tls.ClientCAs := pool_of certs;
              tls.ClientAuth :=
                match chain_byte_pool certChain with
                | [] => tls.NoClientCert
                | _ :: _ => tls.RequireAndVerifyClientCert
                end |})],
        None)).
Proof.
  intros Hresolved Hdecode Hstore Hkey.
  apply exits_run.
  replace {| tls.Certificates :=
               [{| tls.CertificateList := x509.Raw leafCert :: chain_byte_pool certChain;
                   tls.PrivateKey := key;
                   tls.Leaf := leafCert |}];
             tls.ClientCAs := pool_of certs;
             tls.ClientAuth :=
               match chain_byte_pool certChain with
               | [] => tls.NoClientCert
               | _ :: _ => tls.RequireAndVerifyClientCert
               end |}
    with (assemble key leafCert (pool_of certs) (chain_byte_pool certChain))
    by (destruct (chain_byte_pool certChain); reflexivity).
  apply (exit_assembled W config winStore cert leafCert certChain certs store key);
    assumption.
Qed.

Lemma all_stages_succeed_two_element_chain :
  snd (setupTLSFromWindowsCertStore Scenarios.two_element_chain Scenarios.config)
  = Returned
      ([grpc.Creds (credentials.NewTLS
          {| tls.Certificates :=
               [{| tls.CertificateList := [Scenarios.leaf_der; Scenarios.intermediate_der];
                   tls.PrivateKey := Scenarios.the_key;
                   tls.Leaf := Scenarios.leaf_cert |}];
             tls.ClientCAs := [Scenarios.intermediate_cert];
             tls.ClientAuth := tls.RequireAndVerifyClientCert |})],
       None).
Proof.
  rewrite (all_stages_succeed Scenarios.two_element_chain Scenarios.config 4096%Z
             (Scenarios.ctx Scenarios.leaf_der) Scenarios.leaf_cert
             (Scenarios.context_of [[Scenarios.leaf_der; Scenarios.intermediate_der]])
             [Scenarios.intermediate_cert] Scenarios.key_store Scenarios.the_key).
  - reflexivity.
  - split; [split; [split; [reflexivity|]|reflexivity]|reflexivity].
    exists "svc.example". split; reflexivity.
  - reflexivity.
  - reflexivity.
  - reflexivity.
Defined.

(** ** The kept elements in closed form *)

Lemma kept_from_all (els : list windows.CertChainElement) :
  forall i start, i <> 0 \/ start <> 0 ->
    kept_from i start els
    = map (fun e => windows.EncodedCert (windows.Element_CertContext e)) els.
Proof.
  induction els as [|e els IH]; intros i start Hpos.
  - reflexivity.
  - unfold kept_from. rewrite enumerate_from_cons. simpl map. simpl filter.
    unfold at_leaf_position at 1. simpl fst. simpl snd.
    assert (Hkeep : (i =? 0)%nat && (start =? 0)%nat = false).
    { apply andb_false_iff. rewrite !Nat.eqb_neq. exact Hpos. }
    rewrite Hkeep. simpl. f_equal.
    apply (IH i (S start)). right. discriminate.
Qed.

Lemma kept_from_first (els : list windows.CertChainElement) :
  kept_from 0 0 els
  = tl (map (fun e => windows.EncodedCert (windows.Element_CertContext e)) els).
Proof.
  destruct els as [|e els]; [reflexivity|].
  unfold kept_from. rewrite enumerate_from_cons. simpl.
  apply (kept_from_all els 0 1). right. discriminate.
Qed.

Lemma kept_elements_from (chains : list windows.CertSimpleChain) :
  forall start,
    map element_bytes
      (filter (fun x => negb (at_leaf_position x)) (indexed_elements_from start chains))
    = List.concat (map (fun ic => kept_from (fst ic) 0 (windows.Elements (snd ic)))
                (enumerate_from start chains)).
Proof.
  induction chains as [|c chains IH]; intros start.
  - reflexivity.
  - unfold indexed_elements_from. rewrite enumerate_from_cons.
    simpl flat_map. rewrite filter_app, map_app. simpl map. simpl List.concat.
    f_equal. apply IH.
Qed.

Lemma kept_elements_later (chains : list windows.CertSimpleChain) :
  forall start, start <> 0 ->
    List.concat (map (fun ic => kept_from (fst ic) 0 (windows.Elements (snd ic)))
              (enumerate_from start chains))
    = List.concat (map chain_bytes chains).
Proof.
  induction chains as [|c chains IH]; intros start Hstart.
  - reflexivity.
  - rewrite enumerate_from_cons. simpl. f_equal.
    + apply kept_from_all. left. exact Hstart.
    + apply IH. discriminate.
Qed.

Lemma chain_byte_pool_closed_form (certChain : windows.CertChainContext) :
  chain_byte_pool certChain
  = match windows.Chains certChain with
    | [] => []
    | first :: others => tl (chain_bytes first) ++ List.concat (map chain_bytes others)
    end.
Proof.
  unfold chain_byte_pool, non_skipped, indexed_elements.
  rewrite kept_elements_from.
  destruct (windows.Chains certChain) as [|first others]; [reflexivity|].
  rewrite enumerate_from_cons. simpl. f_equal.
  - apply kept_from_first.
  - apply kept_elements_later. discriminate.
Qed.

Section DecodingFacts.
Variable W : World.

Lemma decode_all_stops (good : list (list byte)) bad rest err :
  (forall der, In der good -> exists c, ParseCertificate W der = Ok c) ->
  ParseCertificate W bad = Failed err ->
  decode_all W (good ++ bad :: rest) = Failed err
  /\ attempted W (good ++ bad :: rest) = good ++ [bad].
Proof.
  intros Hgood Hbad. induction good as [|g good IH]; simpl.
  - rewrite Hbad. split; reflexivity.
  - destruct (Hgood g (or_introl eq_refl)) as [c Hc]. rewrite Hc.
    destruct IH as [-> ->]; [|split; reflexivity].
    intros der Hin. apply Hgood. right. exact Hin.
Qed.

Lemma decode_all_Forall2 (ders : list (list byte)) :
  forall certs, decode_all W ders = Ok certs ->
    Forall2 (fun der c => ParseCertificate W der = Ok c) ders certs.
Proof.
  induction ders as [|d ders IH]; intros certs H; simpl in H.
  - inversion H. constructor.
  - destruct (ParseCertificate W d) as [c|] eqn:Hd; [|discriminate].
    destruct (decode_all W ders) as [certs'|]; [|discriminate].
    inversion H; subst. constructor; [exact Hd|]. apply IH. reflexivity.
Qed.

End DecodingFacts.

Lemma In_AddCert (s : x509.CertPool) (cert c : x509.Certificate) :
  In c (x509.AddCert s cert) -> In c s \/ c = cert.
Proof.
  unfold x509.AddCert. destruct (x509.contains s cert).
  - intros H. left. exact H.
  - intros H. apply in_app_or in H. destruct H as [H|[H|[]]]; [left|right]; auto.
Qed.

Lemma AddCert_keeps (s : x509.CertPool) (cert c : x509.Certificate) :
  In c s -> In c (x509.AddCert s cert).
Proof.
  unfold x509.AddCert. destruct (x509.contains s cert); intros H;
    [exact H|apply in_or_app; left; exact H].
Qed.

Lemma AddCert_has (s : x509.CertPool) (cert : x509.Certificate) :
  exists c, In c (x509.AddCert s cert) /\ x509.Raw c = x509.Raw cert.
Proof.
  unfold x509.AddCert. destruct (x509.contains s cert) eqn:H.
  - unfold x509.contains in H. apply existsb_exists in H.
    destruct H as [c [Hin Hsame]]. exists c. split; [exact Hin|].
    unfold x509.same_bytes in Hsame.
    destruct (list_eq_dec byte_eq_dec (x509.Raw c) (x509.Raw cert)); [assumption|discriminate].
  - exists cert. split; [apply in_or_app; right; left|]; reflexivity.
Qed.

Lemma AddCert_length (s : x509.CertPool) (cert : x509.Certificate) :
  List.length (x509.AddCert s cert) <= S (List.length s).
Proof.
  unfold x509.AddCert. destruct (x509.contains s cert); [lia|].
  rewrite length_app. simpl. lia.
Qed.

Lemma fold_AddCert_In (certs : list x509.Certificate) :
  forall s c, In c (fold_left x509.AddCert certs s) -> In c s \/ In c certs.
Proof.
  induction certs as [|cert certs IH]; intros s c H; simpl in H.
  - left. exact H.
  - destruct (IH _ _ H) as [H'|H']; [|right; right; exact H'].
    destruct (In_AddCert _ _ _ H') as [H''|Heq].
    + left. exact H''.
    + right. left. symmetry. exact Heq.
Qed.

Lemma fold_AddCert_keeps (certs : list x509.Certificate) :
  forall s c, In c s -> In c (fold_left x509.AddCert certs s).
Proof.
  induction certs as [|cert certs IH]; intros s c H; simpl.
  - exact H.
  - apply IH, AddCert_keeps, H.
Qed.

Lemma fold_AddCert_has (certs : list x509.Certificate) :
  forall s cert, In cert certs ->
    exists c, In c (fold_left x509.AddCert certs s) /\ x509.Raw c = x509.Raw cert.
Proof.
  induction certs as [|cert' certs IH]; intros s cert H; [contradiction|].
  simpl. destruct H as [->|H].
  - destruct (AddCert_has s cert) as [c [Hin Hraw]].
    exists c. split; [apply fold_AddCert_keeps, Hin|exact Hraw].
  - apply IH, H.
Qed.

Lemma fold_AddCert_length (certs : list x509.Certificate) :
  forall s, List.length (fold_left x509.AddCert certs s)
            <= List.length s + List.length certs.
Proof.
  induction certs as [|cert certs IH]; intros s; simpl.
  - lia.
  - specialize (IH (x509.AddCert s cert)).
    pose proof (AddCert_length s cert). lia.
Qed.

Lemma Forall2_In_right {A B : Type} (R : A -> B -> Prop) (l : list A) (l' : list B) :
  Forall2 R l l' -> forall b, In b l' -> exists a, In a l /\ R a b.
Proof.
  induction 1 as [|a b l l' Hab _ IH]; intros y Hin; [contradiction|].
  destruct Hin as [<-|Hin].
  - exists a. split; [left; reflexivity|exact Hab].
  - destruct (IH y Hin) as [x [Hx HR]]. exists x. split; [right; exact Hx|exact HR].
Qed.

Lemma Forall2_In_left {A B : Type} (R : A -> B -> Prop) (l : list A) (l' : list B) :
  Forall2 R l l' -> forall a, In a l -> exists b, In b l' /\ R a b.
Proof.
  induction 1 as [|a b l l' Hab _ IH]; intros x Hin; [contradiction|].
  destruct Hin as [<-|Hin].
  - exists b. split; [left; reflexivity|exact Hab].
  - destruct (IH x Hin) as [y [Hy HR]]. exists y. split; [right; exact Hy|exact HR].
Qed.

Lemma error_logs_app (a b : list event) : error_logs (a ++ b) = error_logs a ++ error_logs b.
Proof. apply flat_map_app. Qed.

Lemma error_logs_cons (e : event) (tr : list event) :
  error_logs (e :: tr)
  = match e with Log LevelError _ err => [err] | _ => [] end ++ error_logs tr.
Proof. reflexivity. Qed.

Lemma error_logs_Parse (ders : list (list byte)) : error_logs (map Parse ders) = [].
Proof. induction ders; [reflexivity|assumption]. Qed.

Lemma KeyRequest_not_Parse (c : windows.CertContext) (ders : list (list byte)) :
  ~ In (KeyRequest c) (map Parse ders).
Proof.
  intros H. apply in_map_iff in H. destruct H as [der [H _]]. discriminate H.
Qed.

(** X8: when the chain loop finishes, the chain bytes it collected are the
    encodings of the first chain without its first element, followed by the
    encodings of all the elements of the other chains, chain after chain:
    the first element of a later chain is kept. *)
Theorem chain_bytes_are_all_but_the_head (W : World)
    (certChain : windows.CertChainContext) st st' certPool certChainBytes :
  chain_loop W certChain st = (st', Next (certPool, certChainBytes)) ->
  certChainBytes
  = match windows.Chains certChain with
    | [] => []
    | first :: others => tl (chain_bytes first) ++ List.concat (map chain_bytes others)
    end.
Proof.
  rewrite chain_loop_process, process_spec.
  destruct (decode_all W (chain_byte_pool certChain)); [|discriminate].
  intros H. inversion H. apply chain_byte_pool_closed_form.
Qed.

Lemma chain_bytes_are_all_but_the_head_cross_signed :
  exists st' certPool,
    chain_loop Scenarios.cross_signed
      (Scenarios.context_of
         [[Scenarios.leaf_der; Scenarios.intermediate_der; Scenarios.root_der];
          [Scenarios.leaf_der; Scenarios.intermediate_der; Scenarios.cross_root_der]])
      init
    = (st', Next (certPool,
                  [Scenarios.intermediate_der; Scenarios.root_der;
                   Scenarios.leaf_der; Scenarios.intermediate_der;
                   Scenarios.cross_root_der]))
    /\ [Scenarios.intermediate_der; Scenarios.root_der;
        Scenarios.leaf_der; Scenarios.intermediate_der; Scenarios.cross_root_der]
       = tl (chain_bytes (Scenarios.chain_of
               [Scenarios.leaf_der; Scenarios.intermediate_der; Scenarios.root_der]))
         ++ List.concat (map chain_bytes
              [Scenarios.chain_of
                 [Scenarios.leaf_der; Scenarios.intermediate_der;
                  Scenarios.cross_root_der]]).
Proof.
  eexists. eexists. split; [reflexivity|].
  eapply (chain_bytes_are_all_but_the_head Scenarios.cross_signed
            (Scenarios.context_of
               [[Scenarios.leaf_der; Scenarios.intermediate_der; Scenarios.root_der];
                [Scenarios.leaf_der; Scenarios.intermediate_der; Scenarios.cross_root_der]])
            init).
  reflexivity.
Defined.

(** X9: when the first chain has no element, the loop skips nothing: the
    chain bytes are the encodings of all the elements of the other chains,
    the first element of the second chain included. *)
Theorem empty_first_chain_skips_nothing (W : World)
    (certChain : windows.CertChainContext) first others st st' certPool certChainBytes :
  windows.Chains certChain = first :: others ->
  windows.Elements first = [] ->
  chain_loop W certChain st = (st', Next (certPool, certChainBytes)) ->
  certChainBytes = List.concat (map chain_bytes others).
Proof.
  intros Hchains Hempty.
  rewrite chain_loop_process, process_spec.
  destruct (decode_all W (chain_byte_pool certChain)); [|discriminate].
  intros H. inversion H. rewrite chain_byte_pool_closed_form, Hchains.
  unfold chain_bytes at 1. rewrite Hempty. reflexivity.
Qed.

Lemma empty_first_chain_skips_nothing_two_chains :
  exists st' certPool,
    chain_loop Scenarios.empty_first_chain
      (Scenarios.context_of [[]; [Scenarios.intermediate_der; Scenarios.root_der]]) init
    = (st', Next (certPool, [Scenarios.intermediate_der; Scenarios.root_der]))
    /\ [Scenarios.intermediate_der; Scenarios.root_der]
       = List.concat (map chain_bytes
           [Scenarios.chain_of [Scenarios.intermediate_der; Scenarios.root_der]]).
Proof.
  eexists. eexists. split; [reflexivity|].
  eapply (empty_first_chain_skips_nothing Scenarios.empty_first_chain
            (Scenarios.context_of [[]; [Scenarios.intermediate_der; Scenarios.root_der]])
            (Scenarios.chain_of [])
            [Scenarios.chain_of [Scenarios.intermediate_der; Scenarios.root_der]]
            init);
    reflexivity.
Defined.

(** X10: the first kept element that does not decode ends the loop: the
    elements before it were decoded, it is the last one decoded, the elements
    after it are not looked at, and the function returns the chain-element
    error that carries its decoding error. *)
Theorem first_failure_ends_the_loop (W : World) (certChain : windows.CertChainContext)
    good bad rest err st :
  chain_byte_pool certChain = good ++ bad :: rest ->
  (forall der, In der good -> exists c, ParseCertificate W der = Ok c) ->
  ParseCertificate W bad = Failed err ->
  chain_loop W certChain st
  = ({| trace := trace st ++ map Parse (good ++ [bad])
                   ++ [Log LevelError "failed to parse certificate from chain" (Some err)];
        deferred := deferred st |},
     Return ([], Some (Errorf "failed to parse certificate from chain: %v" (Some err)))).
Proof.
  intros Hpool Hgood Hbad.
  rewrite chain_loop_process, process_spec, Hpool.
  destruct (decode_all_stops W good bad rest err Hgood Hbad) as [-> ->].
  reflexivity.
Qed.

Lemma first_failure_ends_the_loop_broken_intermediate :
  chain_loop Scenarios.broken_intermediate
    (Scenarios.context_of [[Scenarios.leaf_der; Scenarios.garbage_der; Scenarios.root_der]])
    init
  = ({| trace := [Parse Scenarios.garbage_der;
                  Log LevelError "failed to parse certificate from chain"
                    (Some (ErrorString "x509: malformed certificate"))];
        deferred := [] |},
     Return ([], Some (Errorf "failed to parse certificate from chain: %v"
                         (Some (ErrorString "x509: malformed certificate"))))).
Proof.
  apply (first_failure_ends_the_loop Scenarios.broken_intermediate
           (Scenarios.context_of
              [[Scenarios.leaf_der; Scenarios.garbage_der; Scenarios.root_der]])
           [] Scenarios.garbage_der [Scenarios.root_der]
           (ErrorString "x509: malformed certificate") init).
  - reflexivity.
  - intros der [].
  - reflexivity.
Defined.

(** X11: in a successful run the client-CA pool holds exactly the kept
    elements: every certificate of the pool is the decoding of a kept
    element, every kept element decodes to a certificate whose raw bytes are
    in the pool, and the pool has at most as many entries as there are kept
    elements. *)
Theorem client_CAs_are_the_kept_elements (W : World) (config : srvconfig.Config) tr opts :
  setupTLSFromWindowsCertStore W config = (tr, Returned (opts, None)) ->
  exists winStore cert leafCert certChain tlsConfig,
    ChainResolved W config winStore cert leafCert certChain
    /\ opts = [grpc.Creds (credentials.NewTLS tlsConfig)]
    /\ (forall c, In c (tls.ClientCAs tlsConfig) ->
          exists x, In x (non_skipped (windows.Chains certChain))
                    /\ ParseCertificate W (element_bytes x) = Ok c)
    /\ (forall x, In x (non_skipped (windows.Chains certChain)) ->
          exists c c', ParseCertificate W (element_bytes x) = Ok c
                       /\ In c' (tls.ClientCAs tlsConfig)
                       /\ x509.Raw c' = x509.Raw c)
    /\ List.length (tls.ClientCAs tlsConfig)
       <= List.length (non_skipped (windows.Chains certChain)).
Proof.
  intros Hrun.
  destruct (success_inv W config tr opts Hrun)
    as (winStore & cert & leafCert & certChain & certs & store & key
        & Hresolved & Hdecode & _ & _ & ->).
  exists winStore, cert, leafCert, certChain. eexists.
  split; [exact Hresolved|]. split; [reflexivity|].
  rewrite assemble_ClientCAs.
  pose proof (decode_all_Forall2 W _ _ Hdecode) as Hall.
  pose proof (decode_all_length W _ _ Hdecode) as Hlen.
  unfold chain_byte_pool in Hall, Hlen. rewrite length_map in Hlen.
  split; [|split].
  - intros c Hin. unfold pool_of in Hin.
    apply fold_AddCert_In in Hin. destruct Hin as [[]|Hin].
    destruct (Forall2_In_right _ _ _ Hall c Hin) as (der & Hder & Hparse).
    apply in_map_iff in Hder. destruct Hder as (x & <- & Hx).
    exists x. split; assumption.
  - intros x Hx.
    destruct (Forall2_In_left _ _ _ Hall (element_bytes x) (in_map _ _ _ Hx))
      as (c & Hc & Hparse).
    destruct (fold_AddCert_has certs x509.NewCertPool c Hc) as (c' & Hc' & Hraw).
    exists c, c'. repeat split; assumption.
  - unfold pool_of. pose proof (fold_AddCert_length certs x509.NewCertPool) as H.
    simpl in H. lia.
Qed.

Lemma client_CAs_are_the_kept_elements_two_element_chain :
  exists tlsConfig,
    snd (setupTLSFromWindowsCertStore Scenarios.two_element_chain Scenarios.config)
    = Returned ([grpc.Creds (credentials.NewTLS tlsConfig)], None)
    /\ tls.ClientCAs tlsConfig = [Scenarios.intermediate_cert].
Proof.
  destruct (client_CAs_are_the_kept_elements Scenarios.two_element_chain Scenarios.config
              _ _ eq_refl)
    as (winStore & cert & leafCert & certChain & tlsConfig & _ & Hopts & _).
  exists tlsConfig. injection Hopts as <-. split; reflexivity.
Defined.

(** X12: in a successful run, when the decoder kept the raw bytes of the
    leaf and the first chain starts with the certificate found, the byte
    list of the identity is the chain context flattened: the encodings of
    all the elements of all the chains, in order. *)
Theorem identity_is_the_flattened_chain (W : World) (config : srvconfig.Config)
    tr opts winStore cert leafCert certChain first others :
  setupTLSFromWindowsCertStore W config = (tr, Returned (opts, None)) ->
  ChainResolved W config winStore cert leafCert certChain ->
  x509.Raw leafCert = windows.EncodedCert cert ->
  windows.Chains certChain = first :: others ->
  hd_error (chain_bytes first) = Some (windows.EncodedCert cert) ->
  exists tlsConfig identity,
    opts = [grpc.Creds (credentials.NewTLS tlsConfig)]
    /\ tls.Certificates tlsConfig = [identity]
    /\ tls.CertificateList identity
       = List.concat (map chain_bytes (windows.Chains certChain)).
Proof.
  intros Hrun Hresolved Hraw Hchains Hhead.
  destruct (success_inv W config tr opts Hrun)
    as (winStore' & cert' & leafCert' & certChain' & certs & store & key
        & Hresolved' & _ & _ & _ & ->).
  destruct (ChainResolved_fun _ _ _ _ _ _ _ _ _ _ Hresolved Hresolved')
    as (<- & <- & <- & <-).
  eexists. eexists. split; [reflexivity|].
  rewrite assemble_Certificates. split; [reflexivity|].
  simpl tls.CertificateList.
  rewrite chain_byte_pool_closed_form, Hchains, Hraw. simpl.
  destruct (chain_bytes first) as [|head rest]; [discriminate Hhead|].
  injection Hhead as ->. reflexivity.
Qed.

Lemma identity_is_the_flattened_chain_two_element_chain :
  exists tlsConfig identity,
    snd (setupTLSFromWindowsCertStore Scenarios.two_element_chain Scenarios.config)
    = Returned ([grpc.Creds (credentials.NewTLS tlsConfig)], None)
    /\ tls.Certificates tlsConfig = [identity]
    /\ tls.CertificateList identity
       = List.concat (map chain_bytes
           [Scenarios.chain_of [Scenarios.leaf_der; Scenarios.intermediate_der]]).
Proof.
  destruct (identity_is_the_flattened_chain Scenarios.two_element_chain Scenarios.config
              _ _ 4096%Z (Scenarios.ctx Scenarios.leaf_der) Scenarios.leaf_cert
              (Scenarios.context_of [[Scenarios.leaf_der; Scenarios.intermediate_der]])
              (Scenarios.chain_of [Scenarios.leaf_der; Scenarios.intermediate_der]) []
              eq_refl)
    as (tlsConfig & identity & Hopts & Hid & Hlist).
  - split; [split; [split; [reflexivity|]|reflexivity]|reflexivity].
    exists "svc.example". split; reflexivity.
  - reflexivity.
  - reflexivity.
  - reflexivity.
  - exists tlsConfig, identity. injection Hopts as <-.
    split; [reflexivity|]. split; [exact Hid|exact Hlist].
Defined.

(** X13: in a successful run on a chain context of one chain that starts
    with the certificate found and has no encoding twice, with a decoder that
    keeps the raw bytes, the raw bytes of the leaf are not in the client-CA
    pool and occur only once, first, in the byte list of the identity. *)
Theorem single_chain_keeps_the_leaf_out (W : World) (config : srvconfig.Config)
    tr opts winStore cert leafCert certChain chain :
  setupTLSFromWindowsCertStore W config = (tr, Returned (opts, None)) ->
  ChainResolved W config winStore cert leafCert certChain ->
  (forall der c, ParseCertificate W der = Ok c -> x509.Raw c = der) ->
  windows.Chains certChain = [chain] ->
  hd_error (chain_bytes chain) = Some (windows.EncodedCert cert) ->
  NoDup (chain_bytes chain) ->
  exists tlsConfig identity,
    opts = [grpc.Creds (credentials.NewTLS tlsConfig)]
    /\ tls.Certificates tlsConfig = [identity]
    /\ ~ In (x509.Raw leafCert) (map x509.Raw (tls.ClientCAs tlsConfig))
    /\ ~ In (x509.Raw leafCert) (tl (tls.CertificateList identity)).
Proof.
  intros Hrun Hresolved Hraw Hchains Hhead Hnodup.
  destruct (success_inv W config tr opts Hrun)
    as (winStore' & cert' & leafCert' & certChain' & certs & store & key
        & Hresolved' & Hdecode & _ & _ & ->).
  destruct (ChainResolved_fun _ _ _ _ _ _ _ _ _ _ Hresolved Hresolved')
    as (<- & <- & <- & <-).
  assert (Hleaf : x509.Raw leafCert = windows.EncodedCert cert).
  { destruct Hresolved as [[_ Hparse] _]. apply Hraw, Hparse. }
  assert (Hpool : chain_byte_pool certChain = tl (chain_bytes chain)).
  { rewrite chain_byte_pool_closed_form, Hchains. simpl. apply app_nil_r. }
  assert (Hout : ~ In (x509.Raw leafCert) (chain_byte_pool certChain)).
  { rewrite Hpool, Hleaf.
    destruct (chain_bytes chain) as [|head rest]; [discriminate Hhead|].
    injection Hhead as ->. simpl. inversion Hnodup. assumption. }
  eexists. eexists. split; [reflexivity|].
  rewrite assemble_Certificates, assemble_ClientCAs. split; [reflexivity|].
  split; [|exact Hout].
  intros Hin. apply in_map_iff in Hin. destruct Hin as (c & Hc & Hin).
  unfold pool_of in Hin. apply fold_AddCert_In in Hin. destruct Hin as [[]|Hin].
  destruct (Forall2_In_right _ _ _ (decode_all_Forall2 W _ _ Hdecode) c Hin)
    as (der & Hder & Hparse).
  apply Hout. rewrite <- Hc, (Hraw der c Hparse). exact Hder.
Qed.

Lemma single_chain_keeps_the_leaf_out_two_element_chain :
  exists tlsConfig identity,
    snd (setupTLSFromWindowsCertStore Scenarios.two_element_chain Scenarios.config)
    = Returned ([grpc.Creds (credentials.NewTLS tlsConfig)], None)
    /\ tls.Certificates tlsConfig = [identity]
    /\ ~ In Scenarios.leaf_der (map x509.Raw (tls.ClientCAs tlsConfig))
    /\ ~ In Scenarios.leaf_der (tl (tls.CertificateList identity)).
Proof.
  destruct (single_chain_keeps_the_leaf_out Scenarios.two_element_chain Scenarios.config
              _ _ 4096%Z (Scenarios.ctx Scenarios.leaf_der) Scenarios.leaf_cert
              (Scenarios.context_of [[Scenarios.leaf_der; Scenarios.intermediate_der]])
              (Scenarios.chain_of [Scenarios.leaf_der; Scenarios.intermediate_der])
              eq_refl)
    as (tlsConfig & identity & Hopts & Hid & Hpool & Hlist).
  - split; [split; [split; [reflexivity|]|reflexivity]|reflexivity].
    exists "svc.example". split; reflexivity.
  - intros der c. simpl. unfold Scenarios.parse.
    destruct der as [|b der]; [discriminate|].
    destruct b; try discriminate. intros H. injection H as <-. reflexivity.
  - reflexivity.
  - reflexivity.
  - repeat constructor; simpl; intuition discriminate.
  - exists tlsConfig, identity. injection Hopts as <-.
    split; [reflexivity|]. split; [exact Hid|]. split; assumption.
Defined.

(** X14: in a successful run the client-CA pool is empty if and only if
    client authentication keeps its default, no client certificate. *)
Theorem no_anchors_iff_no_enforcement (W : World) (config : srvconfig.Config) tr opts :
  setupTLSFromWindowsCertStore W config = (tr, Returned (opts, None)) ->
  exists tlsConfig,
    opts = [grpc.Creds (credentials.NewTLS tlsConfig)]
    /\ (tls.ClientCAs tlsConfig = [] <-> tls.ClientAuth tlsConfig = tls.NoClientCert).
Proof.
  intros Hrun.
  destruct (success_inv W config tr opts Hrun)
    as (winStore & cert & leafCert & certChain & certs & store & key
        & _ & Hdecode & _ & _ & ->).
  eexists. split; [reflexivity|].
  rewrite assemble_ClientAuth, assemble_ClientCAs.
  pose proof (decode_all_length W _ _ Hdecode) as Hlen.
  destruct (chain_byte_pool certChain) as [|der ders].
  - destruct certs; [|discriminate Hlen]. split; reflexivity.
  - split; [|discriminate]. intros Hempty. exfalso.
    apply (pool_of_not_empty certs); [|exact Hempty].
    destruct certs; [discriminate Hlen|discriminate].
Qed.

Lemma no_anchors_iff_no_enforcement_leaf_only :
  exists tlsConfig,
    snd (setupTLSFromWindowsCertStore Scenarios.leaf_only Scenarios.config)
    = Returned ([grpc.Creds (credentials.NewTLS tlsConfig)], None)
    /\ tls.ClientCAs tlsConfig = []
    /\ tls.ClientAuth tlsConfig = tls.NoClientCert.
Proof.
  destruct (no_anchors_iff_no_enforcement Scenarios.leaf_only Scenarios.config
              _ _ eq_refl)
    as (tlsConfig & Hopts & Hiff).
  exists tlsConfig. injection Hopts as <-.
  split; [reflexivity|]. split; [reflexivity|].
  apply Hiff. reflexivity.
Defined.

(** X15: a call that returns an error returns one built from a format of
    the source other than the store-name one, around a cause, and logged
    exactly one error-level event, with that cause; a call that returns no
    error logged no error-level event. *)
Theorem errors_are_logged_once (W : World) (config : srvconfig.Config) tr opts err :
  setupTLSFromWindowsCertStore W config = (tr, Returned (opts, err)) ->
  match err with
  | Some e =>
      exists format cause,
        e = Errorf format cause
        /\ In format (tl error_formats)
        /\ error_logs tr = [cause]
  | None => error_logs tr = []
  end.
Proof.
  destruct (setupTLSFromWindowsCertStore_exits W config);
    unfold chain_parse_error; intros Hrun; injection Hrun as <- <- <-;
    try (eexists; eexists; split; [reflexivity|]; split; [simpl; tauto|]);
    rewrite ?error_logs_cons, ?error_logs_app, ?error_logs_Parse;
    reflexivity.
Qed.

Lemma errors_are_logged_once_no_match :
  exists tr format cause,
    setupTLSFromWindowsCertStore Scenarios.no_match Scenarios.config
    = (tr, Returned ([], Some (Errorf format cause)))
    /\ In format (tl error_formats)
    /\ error_logs tr = [cause].
Proof.
  destruct (errors_are_logged_once Scenarios.no_match Scenarios.config
              (fst (setupTLSFromWindowsCertStore Scenarios.no_match Scenarios.config))
              [] (Some (Errorf "failed to find certificate in store: %w"
                          (Some (Errno 2148081668)))) eq_refl)
    as (format & cause & Heq & Hformat & Hlogs).
  injection Heq as <- <-.
  eexists. eexists. eexists. split; [reflexivity|]. split; [exact Hformat|exact Hlogs].
Defined.

(** X16: handles are acquired in one order: store handle, certificate
    reference, chain context, key-management handle; a call acquires the
    first [n] of them, and all four when it returns no error. *)
Theorem handles_are_acquired_in_order (W : World) (config : srvconfig.Config) :
  exists n,
    n <= 4
    /\ map handle_rank (acquired (fst (setupTLSFromWindowsCertStore W config))) = seq 0 n
    /\ (forall opts,
          snd (setupTLSFromWindowsCertStore W config) = Returned (opts, None) -> n = 4).
Proof.
  destruct (setupTLSFromWindowsCertStore_exits W config);
    unfold fst, snd, chain_parse_error;
    rewrite ?acquired_app, ?acquired_Parse.
  - exists 0. split; [lia|]. split; [reflexivity|discriminate].
  - exists 1. split; [lia|]. split; [reflexivity|discriminate].
  - exists 1. split; [lia|]. split; [reflexivity|discriminate].
  - exists 2. split; [lia|]. split; [reflexivity|discriminate].
  - exists 2. split; [lia|]. split; [reflexivity|discriminate].
  - exists 3. split; [lia|]. split; [reflexivity|discriminate].
  - exists 3. split; [lia|]. split; [reflexivity|discriminate].
  - exists 4. split; [lia|]. split; [reflexivity|discriminate].
  - exists 4. split; [lia|]. split; reflexivity.
Qed.

(** X17: a private key is requested only for the certificate found in the
    store, and only after its leaf was decoded, its chain resolved, every
    kept element decoded and the key-management layer opened. *)
Theorem key_requested_after_the_chain (W : World) (config : srvconfig.Config) c :
  In (KeyRequest c) (fst (setupTLSFromWindowsCertStore W config)) ->
  exists winStore leafCert certChain certs store,
    ChainResolved W config winStore c leafCert certChain
    /\ decode_all W (chain_byte_pool certChain) = Ok certs
    /\ open_key_store W leafCert = Ok store.
Proof.
  destruct (setupTLSFromWindowsCertStore_exits W config); unfold fst; intros Hin;
    repeat (apply in_app_or in Hin; destruct Hin as [Hin|Hin]);
    try (exfalso; exact (KeyRequest_not_Parse _ _ Hin));
    simpl in Hin; repeat (destruct Hin as [Hin|Hin]);
    try discriminate Hin; try contradiction;
    injection Hin as <-;
    exists winStore, leafCert, certChain, certs, store;
    repeat (split; [assumption|]); assumption.
Qed.

Lemma key_requested_after_the_chain_two_element_chain :
  exists winStore leafCert certChain certs store,
    ChainResolved Scenarios.two_element_chain Scenarios.config winStore
      (Scenarios.ctx Scenarios.leaf_der) leafCert certChain
    /\ decode_all Scenarios.two_element_chain (chain_byte_pool certChain) = Ok certs
    /\ open_key_store Scenarios.two_element_chain leafCert = Ok store.
Proof.
  apply (key_requested_after_the_chain Scenarios.two_element_chain Scenarios.config).
  vm_compute. tauto.
Defined.

(** X18: in a successful run the private key of the returned identity is
    the capability that the key-management layer, opened for the issuer of
    the decoded leaf, gave for the certificate found in the store; the call
    releases the key-management handle after that request and before it
    returns: the returned key outlives the handle it came from. *)
Theorem returned_key_outlives_its_store (W : World) (config : srvconfig.Config) tr opts :
  setupTLSFromWindowsCertStore W config = (tr, Returned (opts, None)) ->
  exists winStore cert leafCert store key tlsConfig identity before after,
    LeafParsed W config winStore cert leafCert
    /\ open_key_store W leafCert = Ok store
    /\ CertKey W store cert = Ok key
    /\ opts = [grpc.Creds (credentials.NewTLS tlsConfig)]
    /\ tls.Certificates tlsConfig = [identity]
    /\ tls.PrivateKey identity = key
    /\ tr = before ++ Release (KeyManagementHandle store) :: after
    /\ In (KeyRequest cert) before.
Proof.
  intros Hrun.
  pose proof (setupTLSFromWindowsCertStore_exits W config) as E.
  rewrite Hrun in E. inversion E; subst.
  match goal with H : ChainResolved _ _ _ _ _ _ |- _ => destruct H as [Hparsed _] end.
  exists winStore, cert, leafCert, store, key. eexists. eexists.
  exists ([first_log config; Acquire (StoreHandle winStore);
           Acquire (CertificateReference cert);
           Parse (windows.EncodedCert cert);
           Acquire (ChainContext certChain)]
          ++ map Parse (chain_byte_pool certChain)
          ++ [Acquire (KeyManagementHandle store); KeyRequest cert;
              Log LevelInfo "Loaded TLS configuration successfully" None]).
  exists [Release (ChainContext certChain);
          Release (CertificateReference cert);
          Release (StoreHandle winStore)].
  repeat (split; [assumption|]).
  split; [reflexivity|].
  rewrite assemble_Certificates. split; [reflexivity|]. split; [reflexivity|].
  split.
  - rewrite <- !app_assoc. reflexivity.
  - apply in_or_app. right. apply in_or_app. right. simpl. tauto.
Qed.

Lemma returned_key_outlives_its_store_per_certificate_keys :
  exists tlsConfig identity before after,
    setupTLSFromWindowsCertStore Scenarios.per_certificate_keys Scenarios.config
    = (before ++ Release (KeyManagementHandle Scenarios.key_store) :: after,
       Returned ([grpc.Creds (credentials.NewTLS tlsConfig)], None))
    /\ tls.Certificates tlsConfig = [identity]
    /\ tls.PrivateKey identity = {| certtostore.key_handle := 9 |}
    /\ In (KeyRequest (Scenarios.ctx Scenarios.leaf_der)) before.
Proof.
  destruct (returned_key_outlives_its_store Scenarios.per_certificate_keys Scenarios.config
              (fst (setupTLSFromWindowsCertStore Scenarios.per_certificate_keys
                      Scenarios.config))
              _ eq_refl)
    as (winStore & cert & leafCert & store & key & tlsConfig & identity & before & after
        & Hparsed & Hstore & Hkey & Hopts & Hid & Hpk & Htr & Hreq).
  destruct Hparsed as [[_ (name & _ & Hfind)] Hleaf].
  injection Hfind as <-. simpl in Hleaf. injection Hleaf as <-.
  injection Hstore as <-. simpl in Hkey. injection Hkey as <-.
  exists tlsConfig, identity, before, after.
  injection Hopts as <-.
  split; [|split; [exact Hid|split; [exact Hpk|exact Hreq]]].
  rewrite <- Htr. reflexivity.
Defined.

(** ** The leaf and the trust pool *)



